(** * build_combined_csv.py: a shallow embedding and its verified properties

    The script merges the per-category CSV files of a localisation patch
    into one combined table.  It reads a reference combined file for the
    column order and the section order, assembles the output rows and
    writes them out.

    Modelling conventions.
    - A Python [str] is the list of its Unicode code points ([pystr]).
    - A CSV file is represented by the records [csv.reader] yields from
      it after [utf-8-sig] decoding: a list of rows, each a list of [str]
      fields, a blank line being the empty row.  Decoding and tokenising
      are the work of the Python library, not of this script.
    - A Python [dict] is an insertion-ordered association list with
      unique keys ([PyDict]).
    - Exceptions are values of [exn], carried by the [result] monad.
    - The file system and [os.path] are parameters of the development
      (Section [Script]).  A path is either no file or a file that opens
      and decodes into records; failures of [open], of decoding and of
      writing are outside the model, so the statements below say what
      the script returns and which of its own checks stop it. *)

From Stdlib Require Import Ascii String List NArith ZArith Bool Lia Permutation.
Import ListNotations.

Set Implicit Arguments.
Set Warnings "-notation-for-abbreviation".

(** ** Python strings *)

Definition pystr := list N.

Definition pystr_eq_dec : forall a b : pystr, {a = b} + {a <> b} :=
  list_eq_dec N.eq_dec.

Definition pystr_eqb (a b : pystr) : bool :=
  if pystr_eq_dec a b then true else false.

(** Decoding of a UTF-8 byte sequence, used only to write the literals of
    the script as they appear in its text. *)
Fixpoint utf8_decode (bs : list N) : pystr :=
  match bs with
  | [] => []
  | b0 :: t0 =>
    if (b0 <? 128)%N then b0 :: utf8_decode t0
    else if (b0 <? 224)%N then
      match t0 with
      | b1 :: t1 => ((b0 mod 32) * 64 + b1 mod 64)%N :: utf8_decode t1
      | _ => []
      end
    else if (b0 <? 240)%N then
      match t0 with
      | b1 :: b2 :: t2 =>
        ((b0 mod 16) * 4096 + (b1 mod 64) * 64 + b2 mod 64)%N :: utf8_decode t2
      | _ => []
      end
    else
      match t0 with
      | b1 :: b2 :: b3 :: t3 =>
        ((b0 mod 8) * 262144 + (b1 mod 64) * 4096 + (b2 mod 64) * 64 + b3 mod 64)%N
          :: utf8_decode t3
      | _ => []
      end
  end.

Definition str (s : string) : pystr :=
  utf8_decode (map N_of_ascii (list_ascii_of_string s)).

(** [str.isspace] on one code point: the white-space table of CPython. *)
Definition isspace (c : N) : bool :=
  ((9 <=? c) && (c <=? 13) || (28 <=? c) && (c <=? 32)
   || (c =? 133) || (c =? 160) || (c =? 5760)
   || (8192 <=? c) && (c <=? 8202)
   || (c =? 8232) || (c =? 8233) || (c =? 8239) || (c =? 8287)
   || (c =? 12288))%N.

Fixpoint dropwhile (p : N -> bool) (s : pystr) : pystr :=
  match s with
  | [] => []
  | c :: t => if p c then dropwhile p t else s
  end.

(** [s.lstrip(chars)] *)
Definition lstrip_chars (chars s : pystr) : pystr :=
  dropwhile (fun c => existsb (N.eqb c) chars) s.

(** [s.strip()] *)
Definition strip (s : pystr) : pystr :=
  rev (dropwhile isspace (rev (dropwhile isspace s))).

(** [s.startswith(p)] *)
Fixpoint startswith (s p : pystr) : bool :=
  match p, s with
  | [], _ => true
  | _ :: _, [] => false
  | a :: p', b :: s' => (a =? b)%N && startswith s' p'
  end.

(** [s.endswith(p)] *)
Definition endswith (s p : pystr) : bool := startswith (rev s) (rev p).

(** ** Exceptions *)

Inductive exn : Type :=
| SystemExit (message : pystr)
| IndexError
| AttributeError
| FileNotFoundError.

Inductive result (A : Type) : Type :=
| Ok (a : A)
| Raise (e : exn).

Arguments Ok {A} a.
Arguments Raise {A} e.

Definition bind {A B : Type} (m : result A) (k : A -> result B) : result B :=
  match m with
  | Ok a => k a
  | Raise e => Raise e
  end.

Notation "x <- m ;; k" := (bind m (fun x => k))
  (at level 61, m at next level, right associativity).
Notation "' p <- m ;; k" := (bind m (fun x => let p := x in k))
  (at level 61, p pattern, m at next level, right associativity).

(** ** Python dictionaries *)

Module PyDict.
Section Dict.
Variables K V : Type.
Variable K_eq_dec : forall a b : K, {a = b} + {a <> b}.

Definition t := list (K * V).

(** [d[k] = v]: an existing key keeps its place, a new one goes last. *)
Fixpoint setitem (d : t) (k : K) (v : V) : t :=
match d with
| [] => [(k, v)]
| (k', v') :: d' =>
  if K_eq_dec k k' then (k', v) :: d' else (k', v') :: setitem d' k v
end.

(** [d.get(k)] *)
Fixpoint get (d : t) (k : K) : option V :=
match d with
| [] => None
| (k', v') :: d' => if K_eq_dec k k' then Some v' else get d' k
end.

(** [dict(pairs)] *)
Definition of_pairs (pairs : list (K * V)) : t :=
fold_left (fun d kv => setitem d (fst kv) (snd kv)) pairs [].

(** [d.items()] *)
Definition items (d : t) : list (K * V) := d.
End Dict.
End PyDict.

(** ** CSV files, as the [csv] module reads them *)

Definition csv_records := list (list pystr).

(** What [csv.DictReader] stores in a row: a field, the [restval]
    ([None]) of a short row, or the surplus fields of a long row. *)
Inductive reader_value : Type :=
| RStr (s : pystr)
| RNone
| RList (l : list pystr).

(** What a source row of the script holds after [read_csv_rows]. *)
Inductive value : Type :=
| VStr (s : pystr)
| VList (l : list pystr).

Definition reader_key_eq_dec : forall a b : option pystr, {a = b} + {a <> b}.
Proof. decide equality. apply pystr_eq_dec. Defined.

Definition reader_row := PyDict.t (option pystr) reader_value.
Definition source_row := PyDict.t pystr value.

(** One step of [csv.DictReader.__next__] on a non-blank record: the
    fields are zipped with the field names; surplus fields go under the
    [restkey] ([None]), missing ones are filled with [restval] ([None]). *)
Definition DictReader_next (fieldnames row : list pystr) : reader_row :=
  let d := PyDict.of_pairs reader_key_eq_dec
             (combine (map Some fieldnames) (map RStr row)) in
  let lf := length fieldnames in
  let lr := length row in
  if lf <? lr then
    PyDict.setitem reader_key_eq_dec d None (RList (skipn lf row))
  else if lr <? lf then
    fold_left (fun d key => PyDict.setitem reader_key_eq_dec d (Some key) RNone)
              (skipn lr fieldnames) d
  else d.

(** ** The script *)

Definition SECTION_MARKER_PREFIX : pystr := str "//".
Definition LANGUAGE_KEYS : list pystr :=
  [str "CURRENT_LANGUAGE_NAME"; str "CURRENT_LANGUAGE_SHIPPABLE"].

(** [key in LANGUAGE_KEYS] *)
Definition in_LANGUAGE_KEYS (key : pystr) : bool :=
  existsb (pystr_eqb key) LANGUAGE_KEYS.

(** The character U+FEFF. *)
Definition BOM : pystr := [65279%N].

(** [(field or '').lstrip(BOM)] *)
Definition normalize_header (field : option pystr) : pystr :=
  lstrip_chars BOM (match field with Some s => s | None => [] end).

Record filesystem : Type := {
  isdir : pystr -> bool;
  files : pystr -> option csv_records
}.

(** [os.path.isfile] *)
Definition isfile (fs : filesystem) (path : pystr) : bool :=
  match files fs path with Some _ => true | None => false end.

(** The body of the loop over [row.items()] in [read_csv_rows]. *)
Definition fix_item (fixed : source_row) (item : option pystr * reader_value) : source_row :=
  PyDict.setitem pystr_eq_dec fixed (normalize_header (fst item))
    (match snd item with
     | RNone => VStr []
     | RStr s => VStr s
     | RList l => VList l
     end).

Definition fix_row (row : reader_row) : source_row :=
  fold_left fix_item (PyDict.items row) [].

(** The rows of [read_csv_rows] on the records of an opened file. *)
Definition read_records (records : csv_records) : list pystr * list source_row :=
  match records with
  | [] => ([], [])
  | [] :: _ => ([], [])
  | fieldnames :: rest =>
    (map (fun name => normalize_header (Some name)) fieldnames,
     map (fun row => fix_row (DictReader_next fieldnames row))
         (filter (fun row => match row with [] => false | _ => true end) rest))
  end.

Definition read_csv_rows (fs : filesystem) (file_path : pystr)
  : result (list pystr * list source_row) :=
  match files fs file_path with
  | None => Raise FileNotFoundError
  | Some records => Ok (read_records records)
  end.

(** [[source_row.get(col, '') for col in output_columns]] *)
Definition to_output_row (source_row : source_row) (output_columns : list pystr)
  : list value :=
  map (fun col => match PyDict.get pystr_eq_dec source_row col with
                  | Some v => v
                  | None => VStr []
                  end) output_columns.

(** [(row.get('KEY') or '').strip()]; a non-empty list has no [strip]. *)
Definition row_key (row : source_row) : result pystr :=
  match PyDict.get pystr_eq_dec row (str "KEY") with
  | None => Ok (strip [])
  | Some (VStr s) => Ok (strip s)
  | Some (VList []) => Ok (strip [])
  | Some (VList (_ :: _)) => Raise AttributeError
  end.

(** [l[0] = v] *)
Definition setitem0 (l : list value) (v : value) : result (list value) :=
  match l with
  | [] => Raise IndexError
  | _ :: t => Ok (v :: t)
  end.

(** [[''] * len(output_columns)] *)
Definition empty_row (output_columns : list pystr) : list value :=
  repeat (VStr []) (length output_columns).

(** [enumerate(l)] *)
Definition enumerate (A : Type) (l : list A) : list (nat * A) :=
  combine (seq 0 (length l)) l.

Definition NO_LANGUAGE_ROWS : pystr :=
  str "未在 additions.csv 中找到 CURRENT_LANGUAGE_* 行，combined 顶部语言行将缺失".
Definition MISSING_FILE : pystr := str "缺少文件，已保留空分段: ".

(** The loop over [additions_rows]; the state is
    [(rows_out, language_rows_added)]. *)
Fixpoint language_loop (output_columns : list pystr) (additions_rows : list source_row)
    (st : list (list value) * Z) : result (list (list value) * Z) :=
  match additions_rows with
  | [] => Ok st
  | row :: rest =>
    key <- row_key row ;;
    language_loop output_columns rest
      (if in_LANGUAGE_KEYS key
       then (fst st ++ [to_output_row row output_columns], (snd st + 1)%Z)
       else st)
  end.

(** The loop over [source_rows] of one section. *)
Fixpoint source_loop (file_name : pystr) (output_columns : list pystr)
    (source_rows : list source_row) (rows_out : list (list value))
  : result (list (list value)) :=
  match source_rows with
  | [] => Ok rows_out
  | row :: rest =>
    key <- row_key row ;;
    if pystr_eqb file_name (str "additions.csv") && in_LANGUAGE_KEYS key
    then source_loop file_name output_columns rest rows_out
    else source_loop file_name output_columns rest
           (rows_out ++ [to_output_row row output_columns])
  end.

Section Script.
(** [os.path.join], [os.path.abspath], [os.path.isabs] *)
Variable path_join : pystr -> pystr -> pystr.
Variable path_abspath : pystr -> pystr.
Variable path_isabs : pystr -> bool.
(** The bytes [csv.writer] emits, through the [utf-8-sig] encoder, for
    a list of rows. *)
Variable csv_writer : list (list value) -> list N.

Variable fs : filesystem.

Definition parse_reference_combined (reference_path : pystr)
  : result (list pystr * list pystr) :=
  match files fs reference_path with
  | None => Raise FileNotFoundError
  | Some [] =>
    Raise (SystemExit (str "参考 combined 为空: " ++ reference_path))
  | Some (raw_header :: reader) =>
    let header := map (fun col => normalize_header (Some col)) raw_header in
    let order :=
      fold_left
        (fun order row =>
           match row with
           | [] => order
           | cell :: _ =>
             let first := strip cell in
             if startswith first SECTION_MARKER_PREFIX && endswith first (str ".csv")
             then order ++ [strip (skipn (length SECTION_MARKER_PREFIX) first)]
             else order
           end)
        reader [] in
    match order with
    | [] => Raise (SystemExit (str "未能从参考 combined 中提取任何分段顺序"))
    | _ :: _ => Ok (header, order)
    end
  end.

(** The body of the loop over [enumerate(section_order)]; the state is
    [(rows_out, warnings)]. *)
Definition section_body (text_dir : pystr) (output_columns section_order : list pystr)
    (index : nat) (file_name : pystr) (st : list (list value) * list pystr)
  : result (list (list value) * list pystr) :=
  let file_path := path_join text_dir file_name in
  marker_row <- setitem0 (empty_row output_columns) (VStr (str "// " ++ file_name)) ;;
  let rows_out := fst st ++ [marker_row] in
  st' <- (if negb (isfile fs file_path)
          then Ok (rows_out, snd st ++ [MISSING_FILE ++ file_name])
          else
            r <- read_csv_rows fs file_path ;;
            rows_out' <- source_loop file_name output_columns (snd r) rows_out ;;
            Ok (rows_out', snd st)) ;;
  if (Z.of_nat index <? Z.of_nat (length section_order) - 1)%Z
  then Ok (fst st' ++ [empty_row output_columns], snd st')
  else Ok st'.

Fixpoint section_loop (text_dir : pystr) (output_columns section_order : list pystr)
    (todo : list (nat * pystr)) (st : list (list value) * list pystr)
  : result (list (list value) * list pystr) :=
  match todo with
  | [] => Ok st
  | (index, file_name) :: rest =>
    st' <- section_body text_dir output_columns section_order index file_name st ;;
    section_loop text_dir output_columns section_order rest st'
  end.

Definition build_combined_rows (text_dir : pystr) (output_columns section_order : list pystr)
  : result (list (list value) * list pystr) :=
  let additions_path := path_join text_dir (str "additions.csv") in
  st0 <- (if isfile fs additions_path
          then
            r <- read_csv_rows fs additions_path ;;
            language_loop output_columns (snd r) ([], 0%Z)
          else Ok ([], 0%Z)) ;;
  let warnings := if (snd st0 =? 0)%Z then [NO_LANGUAGE_ROWS] else [] in
  let rows_out := fst st0 ++ [empty_row output_columns] in
  section_loop text_dir output_columns section_order (enumerate section_order)
    (rows_out, warnings).

(** The effect of [write_combined]: the file at [output_path] now
    holds what the writer emitted for the header row, then the rows. *)
Record written_file : Type := {
  written_path : pystr;
  written_bytes : list N
}.

Definition write_combined (output_path : pystr) (output_columns : list pystr)
    (rows : list (list value)) : written_file :=
  {| written_path := output_path;
     written_bytes := csv_writer (map VStr output_columns :: rows) |}.

Record arguments : Type := {
  arg_text_dir : pystr;
  arg_reference_combined : pystr;
  arg_output : pystr
}.

(** What a run leaves behind: the file written, and the figures and
    warnings printed. *)
Record outcome : Type := {
  out_file : written_file;
  out_sections : nat;
  out_rows : nat;
  out_warnings : list pystr
}.

Definition main (args : arguments) : result outcome :=
  let text_dir := path_abspath (arg_text_dir args) in
  if negb (isdir fs text_dir)
  then Raise (SystemExit (str "输入目录不存在: " ++ text_dir))
  else
    let reference_path := path_abspath (arg_reference_combined args) in
    if negb (isfile fs reference_path)
    then Raise (SystemExit (str "参考 combined 不存在: " ++ reference_path))
    else
      p <- parse_reference_combined reference_path ;;
      let output_columns := fst p in
      let section_order := snd p in
      b <- build_combined_rows text_dir output_columns section_order ;;
      let rows := fst b in
      let warnings := snd b in
      let output_path := strip (arg_output args) in
      let output_path :=
        match output_path with
        | [] => path_join text_dir (str "combined.csv")
        | _ :: _ => if negb (path_isabs output_path)
                    then path_abspath output_path
                    else output_path
        end in
      Ok {| out_file := write_combined output_path output_columns rows;
            out_sections := length section_order;
            out_rows := length rows;
            out_warnings := warnings |}.
End Script.

Arguments str : simpl never.

(** ** The layout of the combined table, in the words of the specification *)

(** A row is a language row when the script finds its key among
    [LANGUAGE_KEYS]. *)
Definition is_language_row (row : source_row) : bool :=
  match row_key row with
  | Ok key => in_LANGUAGE_KEYS key
  | Raise _ => false
  end.

(** A blank row: every output column empty. *)
Definition blank_row (output_columns : list pystr) : list value :=
  map (fun _ => VStr []) output_columns.

(** A marker row: the first cell is ["// " + file_name], the others are
    empty. *)
Definition marker_row (output_columns : list pystr) (file_name : pystr) : list value :=
  VStr (str "// " ++ file_name) :: map (fun _ => VStr []) (tl output_columns).

(** Marker rows of the reference file, and the names they carry. *)
Definition is_section_marker (row : list pystr) : bool :=
  match row with
  | [] => false
  | cell :: _ => startswith (strip cell) (str "//") && endswith (strip cell) (str ".csv")
  end.

Definition marker_name (row : list pystr) : pystr :=
  match row with
  | [] => []
  | cell :: _ => strip (skipn 2 (strip cell))
  end.

Definition section_names (rows : csv_records) : list pystr :=
  map marker_name (filter is_section_marker rows).

Section Layout.
Variable path_join : pystr -> pystr -> pystr.
Variable fs : filesystem.
Variable text_dir : pystr.
Variable output_columns : list pystr.

(** The source rows of a file of the source directory; none when the
    file is missing. *)
Definition rows_of (file_name : pystr) : list source_row :=
  match files fs (path_join text_dir file_name) with
  | None => []
  | Some records => snd (read_records records)
  end.

(** The language rows, taken from [additions.csv]. *)
Definition language_rows : list (list value) :=
  map (fun row => to_output_row row output_columns)
      (filter is_language_row (rows_of (str "additions.csv"))).

(** The data rows of a section: every row of its file, except that the
    [additions.csv] section leaves the language rows out. *)
Definition section_rows (file_name : pystr) : list (list value) :=
  map (fun row => to_output_row row output_columns)
      (if pystr_eqb file_name (str "additions.csv")
       then filter (fun row => negb (is_language_row row)) (rows_of file_name)
       else rows_of file_name).

(** Marker row, data rows, and a blank separator after every section
    but the last. *)
Fixpoint sections_layout (section_order : list pystr) : list (list value) :=
  match section_order with
  | [] => []
  | file_name :: rest =>
    marker_row output_columns file_name :: section_rows file_name ++
    match rest with
    | [] => []
    | _ :: _ => blank_row output_columns :: sections_layout rest
    end
  end.

Definition combined_layout (section_order : list pystr) : list (list value) :=
  language_rows ++ blank_row output_columns :: sections_layout section_order.

(** The warnings: one when no language row was found, then one per
    missing section file. *)
Definition missing_warnings (section_order : list pystr) : list pystr :=
  flat_map (fun file_name =>
              if isfile fs (path_join text_dir file_name) then []
              else [MISSING_FILE ++ file_name]) section_order.

Definition combined_warnings (section_order : list pystr) : list pystr :=
  (match language_rows with [] => [NO_LANGUAGE_ROWS] | _ :: _ => [] end)
  ++ missing_warnings section_order.
End Layout.

(** The rows a section keeps: all of them, but for the language rows of
    the [additions.csv] section. *)
Definition kept (file_name : pystr) (row : source_row) : bool :=
  negb (pystr_eqb file_name (str "additions.csv") && is_language_row row).

(** Only the surplus fields of a long row are a list, and they sit under
    the empty column name. *)
Definition reader_item_ok (item : option pystr * reader_value) : Prop :=
  match snd item with
  | RList _ => fst item = None
  | _ => True
  end.

Definition source_item_ok (item : pystr * value) : Prop :=
  match snd item with
  | VList _ => fst item = []
  | VStr _ => True
  end.

(** ** A small source directory, used to exercise the statements *)

Definition ex_join (d n : pystr) : pystr := d ++ str "/" ++ n.

Definition ex_writer (rows : list (list value)) : list N :=
  flat_map (fun row =>
              flat_map (fun cell => match cell with
                                    | VStr s => s ++ [44%N]
                                    | VList l => concat l ++ [44%N]
                                    end) row ++ [10%N]) rows.

Definition ex_additions : csv_records :=
  [ [str "KEY"; str "EN"; str "ZH"];
    [str "CURRENT_LANGUAGE_NAME"; str "English"; str "中文"];
    [];
    [str "foo"; str "f"; str "g"; str "extra"];
    [str "short"] ].

Definition ex_items : csv_records :=
  [ [str "KEY"; str "EN"; str "NOTE"];
    [str "bar"; str "b"; str "n"];
    [str "CURRENT_LANGUAGE_NAME"; str "kept"; str "n"] ].

Definition ex_reference : csv_records :=
  [ [BOM ++ str "KEY"; str "EN"; str "ZH"];
    [str "CURRENT_LANGUAGE_NAME"; str "English"; str "中文"];
    [];
    [str " // items.csv "];
    [str "//missing.csv"; str "x"];
    [str "// additions.csv"] ].

Definition ex_fs : filesystem :=
  {| isdir := fun p => pystr_eqb p (str "text");
     files := fun p =>
       if pystr_eqb p (str "text/additions.csv") then Some ex_additions
       else if pystr_eqb p (str "text/items.csv") then Some ex_items
       else if pystr_eqb p (str "ref.csv") then Some ex_reference
       else None |}.

(** The same directory with one more file, which no section names. *)
Definition ex_fs' : filesystem :=
  {| isdir := isdir ex_fs;
     files := fun p =>
       if pystr_eqb p (str "notes.txt") then Some [[str "x"]] else files ex_fs p |}.

Definition ex_columns : list pystr := [str "KEY"; str "EN"; str "ZH"].
Definition ex_order : list pystr :=
  [str "items.csv"; str "missing.csv"; str "additions.csv"].

Definition ex_args : arguments :=
  {| arg_text_dir := str "text";
     arg_reference_combined := str "ref.csv";
     arg_output := [] |}.

Definition ex_row : source_row :=
  [(str "KEY", VStr (str "bar")); (str "EN", VStr (str "b")); (str "NOTE", VStr (str "n"))].

(** ** What [read_csv_rows] stores for one item of a reader's row *)

Definition fixed_value (v : reader_value) : value :=
  match v with
  | RNone => VStr []
  | RStr s => VStr s
  | RList l => VList l
  end.

Definition fixed_item (item : option pystr * reader_value) : pystr * value :=
  (normalize_header (fst item), fixed_value (snd item)).

(** A reference file and a target holding the marker rows of its
    sections. *)
Definition ex_markers_fs : filesystem :=
  {| isdir := fun _ => false;
     files := fun _ =>
       Some ([str "KEY"; str "EN"]
               :: map (fun name => [str "// " ++ name; []])
                      (section_names (tl ex_reference))) |}.

Definition ex_item_columns : list pystr := [str "KEY"; str "EN"; str "NOTE"].

(** A directory whose reference file and whose items.csv both start
    with a blank line. *)
Definition ex_blank_fs : filesystem :=
  {| isdir := fun p => pystr_eqb p (str "text");
     files := fun p =>
       if pystr_eqb p (str "ref.csv")
       then Some [[]; [str "// items.csv"]]
       else if pystr_eqb p (str "text/items.csv")
       then Some [[]; [str "KEY"; str "EN"]; [str "bar"; str "b"]]
       else None |}.

(** ** Comparing output rows *)







(** * Properties *)

(** ** Dictionaries *)

Module PyDictFacts.
Section Facts.
Variables K V : Type.
Variable K_eq_dec : forall a b : K, {a = b} + {a <> b}.

Lemma setitem_Forall (P : K * V -> Prop) (d : PyDict.t K V) k v :
Forall P d -> P (k, v) -> Forall P (PyDict.setitem K_eq_dec d k v).
Proof.
intros Hd Hkv. induction Hd as [|[k' v'] d' Hx Hd' IH]; simpl.
- constructor; [assumption | constructor].
- destruct (K_eq_dec k k') as [->|Hne]; constructor; assumption.
Qed.

Lemma get_Forall (P : K * V -> Prop) (d : PyDict.t K V) k v :
Forall P d -> PyDict.get K_eq_dec d k = Some v -> P (k, v).
Proof.
intros Hd. induction Hd as [|[k' v'] d' Hx Hd' IH]; simpl.
- discriminate.
- destruct (K_eq_dec k k') as [->|Hne].
  + intros [= <-]. assumption.
  + assumption.
Qed.

Lemma get_setitem (d : PyDict.t K V) k v k' :
PyDict.get K_eq_dec (PyDict.setitem K_eq_dec d k v) k' =
if K_eq_dec k' k then Some v else PyDict.get K_eq_dec d k'.
Proof.
induction d as [|[k0 v0] d IH]; simpl.
- reflexivity.
- destruct (K_eq_dec k k0) as [->|Hne]; simpl.
  + destruct (K_eq_dec k' k0); reflexivity.
  + destruct (K_eq_dec k' k0) as [->|Hne'].
    * destruct (K_eq_dec k0 k); [congruence | reflexivity].
    * exact IH.
Qed.

Lemma fold_setitem_Forall (A : Type) (P : K * V -> Prop)
    (f : A -> K * V) (l : list A) (d : PyDict.t K V) :
Forall P d -> (forall a, In a l -> P (f a)) ->
Forall P (fold_left (fun d a => PyDict.setitem K_eq_dec d (fst (f a)) (snd (f a))) l d).
Proof.
revert d. induction l as [|a l IH]; simpl; intros d Hd Hl.
- assumption.
- apply IH.
  + apply setitem_Forall; [assumption|].
    rewrite <- surjective_pairing. apply Hl. now left.
  + intros b Hb. apply Hl. now right.
Qed.
End Facts.
End PyDictFacts.

(** ** Strings *)

Lemma pystr_eqb_eq (a b : pystr) : pystr_eqb a b = true <-> a = b.
Proof.
  unfold pystr_eqb. destruct (pystr_eq_dec a b); split; congruence.
Qed.


Lemma pystr_eqb_neq (a b : pystr) : a <> b -> pystr_eqb a b = false.
Proof.
  intros H. unfold pystr_eqb. destruct (pystr_eq_dec a b); congruence.
Qed.

(** ** Rows read from a file never hold a list under the column KEY *)

Lemma DictReader_next_ok (fieldnames row : list pystr) :
  Forall reader_item_ok (DictReader_next fieldnames row).
Proof.
  unfold DictReader_next.
  assert (H0 : Forall reader_item_ok
            (PyDict.of_pairs reader_key_eq_dec
               (combine (map Some fieldnames) (map RStr row)))).
  { unfold PyDict.of_pairs.
    apply PyDictFacts.fold_setitem_Forall
      with (f := fun kv : option pystr * reader_value => kv).
    - constructor.
    - intros [k v] Hin. apply in_combine_r in Hin.
      apply in_map_iff in Hin as [s [<- _]]. exact I. }
  destruct (length fieldnames <? length row).
  - apply PyDictFacts.setitem_Forall; [assumption | reflexivity].
  - destruct (length row <? length fieldnames); [|assumption].
    apply PyDictFacts.fold_setitem_Forall
      with (f := fun key : pystr => (Some key, RNone : reader_value)).
    + assumption.
    + intros a _. exact I.
Qed.

Lemma fix_row_ok (row : reader_row) :
  Forall reader_item_ok row -> Forall source_item_ok (fix_row row).
Proof.
  intros Hrow. unfold fix_row, PyDict.items.
  assert (Hgen : forall fixed, Forall source_item_ok fixed ->
                               Forall source_item_ok (fold_left fix_item row fixed)).
  { induction Hrow as [|[k v] row Hx Hrow IH]; simpl; intros fixed Hf.
    - assumption.
    - apply IH. unfold fix_item. apply PyDictFacts.setitem_Forall; [assumption|].
      unfold source_item_ok; simpl. unfold reader_item_ok in Hx; simpl in Hx.
      destruct v; try exact I. subst k. reflexivity. }
  apply Hgen. constructor.
Qed.

Lemma read_records_ok (records : csv_records) :
  Forall (Forall source_item_ok) (snd (read_records records)).
Proof.
  destruct records as [|[|f fs] rest]; simpl; try constructor.
  apply Forall_forall. intros row Hin.
  apply in_map_iff in Hin as [r [<- _]].
  apply fix_row_ok, DictReader_next_ok.
Qed.

Lemma KEY_not_empty : str "KEY" <> [].
Proof. discriminate. Qed.

Lemma row_key_ok (row : source_row) :
  Forall source_item_ok row -> exists key, row_key row = Ok key.
Proof.
  intros Hrow. unfold row_key.
  destruct (PyDict.get pystr_eq_dec row (str "KEY")) as [[s|l]|] eqn:Hget.
  - eexists; reflexivity.
  - apply PyDictFacts.get_Forall with (P := source_item_ok) in Hget; [|assumption].
    unfold source_item_ok in Hget; simpl in Hget.
    exfalso. now apply KEY_not_empty.
  - eexists; reflexivity.
Qed.

(** ** The loops of [build_combined_rows] *)

Lemma empty_row_blank (output_columns : list pystr) :
  empty_row output_columns = blank_row output_columns.
Proof.
  unfold empty_row, blank_row.
  induction output_columns as [|c cols IH]; simpl; [reflexivity | now rewrite IH].
Qed.

Lemma setitem0_marker (output_columns : list pystr) (file_name : pystr) :
  output_columns <> [] ->
  setitem0 (empty_row output_columns) (VStr (str "// " ++ file_name))
  = Ok (marker_row output_columns file_name).
Proof.
  intros Hne. destruct output_columns as [|c cols]; [congruence|].
  rewrite empty_row_blank. reflexivity.
Qed.

Lemma to_output_row_length (row : source_row) (output_columns : list pystr) :
  length (to_output_row row output_columns) = length output_columns.
Proof. unfold to_output_row. apply length_map. Qed.

Lemma is_language_row_key (row : source_row) (key : pystr) :
  row_key row = Ok key -> is_language_row row = in_LANGUAGE_KEYS key.
Proof. intros H. unfold is_language_row. now rewrite H. Qed.

Lemma language_loop_spec (output_columns : list pystr) (rows : list source_row) :
  Forall (Forall source_item_ok) rows ->
  forall acc n,
    language_loop output_columns rows (acc, n)
    = Ok (acc ++ map (fun row => to_output_row row output_columns)
                     (filter is_language_row rows),
          (n + Z.of_nat (length (filter is_language_row rows)))%Z).
Proof.
  induction 1 as [|row rows Hrow Hrows IH]; intros acc n; simpl.
  - rewrite app_nil_r, Z.add_0_r. reflexivity.
  - destruct (row_key_ok Hrow) as [key Hkey].
    rewrite Hkey; simpl. rewrite (is_language_row_key _ Hkey).
    destruct (in_LANGUAGE_KEYS key); simpl.
    + rewrite IH, <- app_assoc. simpl. do 2 f_equal. lia.
    + apply IH.
Qed.

Lemma source_loop_spec (file_name : pystr) (output_columns : list pystr)
      (rows : list source_row) :
  Forall (Forall source_item_ok) rows ->
  forall acc,
    source_loop file_name output_columns rows acc
    = Ok (acc ++ map (fun row => to_output_row row output_columns)
                     (filter (kept file_name) rows)).
Proof.
  induction 1 as [|row rows Hrow Hrows IH]; intros acc; simpl.
  - now rewrite app_nil_r.
  - destruct (row_key_ok Hrow) as [key Hkey].
    rewrite Hkey; simpl. unfold kept at 1. rewrite (is_language_row_key _ Hkey).
    destruct (pystr_eqb file_name (str "additions.csv") && in_LANGUAGE_KEYS key); simpl.
    + apply IH.
    + rewrite IH, <- app_assoc. reflexivity.
Qed.

Lemma filter_all (A : Type) (l : list A) : filter (fun _ => true) l = l.
Proof. induction l as [|a l IH]; simpl; [reflexivity | now rewrite IH]. Qed.

Section Assembly.
Variable path_join : pystr -> pystr -> pystr.
Variable fs : filesystem.
Variable text_dir : pystr.
Variable output_columns : list pystr.

Local Notation rows_of_in := (rows_of path_join fs text_dir).
Local Notation section_rows_in := (section_rows path_join fs text_dir output_columns).
Local Notation sections_layout_in := (sections_layout path_join fs text_dir output_columns).
Local Notation missing_warnings_in := (missing_warnings path_join fs text_dir).
Local Notation language_rows_in := (language_rows path_join fs text_dir output_columns).

Lemma rows_of_ok (file_name : pystr) :
  Forall (Forall source_item_ok) (rows_of_in file_name).
Proof.
  unfold rows_of.
  destruct (files fs (path_join text_dir file_name)).
  - apply read_records_ok.
  - constructor.
Qed.

Lemma section_rows_kept (file_name : pystr) :
  section_rows_in file_name
  = map (fun row => to_output_row row output_columns)
        (filter (kept file_name) (rows_of_in file_name)).
Proof.
  unfold section_rows, kept.
  destruct (pystr_eqb file_name (str "additions.csv")); simpl.
  - reflexivity.
  - now rewrite filter_all.
Qed.

(** One section, when the column list is not empty. *)
Lemma section_body_spec (section_order : list pystr) (index : nat)
      (file_name : pystr) (st : list (list value) * list pystr) :
  output_columns <> [] ->
  section_body path_join fs text_dir output_columns section_order index file_name st
  = Ok (fst st ++ marker_row output_columns file_name :: section_rows_in file_name
          ++ (if (Z.of_nat index <? Z.of_nat (length section_order) - 1)%Z
              then [blank_row output_columns] else []),
        snd st ++ (if isfile fs (path_join text_dir file_name) then []
                   else [MISSING_FILE ++ file_name])).
Proof.
  intros Hne. unfold section_body.
  rewrite (setitem0_marker file_name Hne); simpl.
  rewrite section_rows_kept. unfold rows_of, isfile, read_csv_rows.
  destruct (files fs (path_join text_dir file_name)) as [records|]; simpl.
  - rewrite (source_loop_spec file_name output_columns (read_records_ok records)); simpl.
    rewrite app_nil_r, empty_row_blank.
    destruct (Z.of_nat index <? Z.of_nat (length section_order) - 1)%Z; simpl;
      rewrite <- ?app_assoc; simpl; rewrite ?app_nil_r; reflexivity.
  - rewrite empty_row_blank.
    destruct (Z.of_nat index <? Z.of_nat (length section_order) - 1)%Z; simpl;
      rewrite <- ?app_assoc; reflexivity.
Qed.

(** The loop over the sections still to do, [done] sections in. *)
Lemma section_loop_spec (section_order : list pystr) :
  output_columns <> [] ->
  forall (rest : list pystr) (done : nat) (st : list (list value) * list pystr),
    done + length rest = length section_order ->
    section_loop path_join fs text_dir output_columns section_order
                 (combine (seq done (length rest)) rest) st
    = Ok (fst st ++ sections_layout_in rest, snd st ++ missing_warnings_in rest).
Proof.
  intros Hne. induction rest as [|file_name rest IH]; intros done st Hlen.
  - simpl. rewrite !app_nil_r. now destruct st.
  - cbn [length seq combine section_loop].
    rewrite section_body_spec by assumption. cbn [bind].
    rewrite IH by (simpl in Hlen; lia). cbn [fst snd].
    replace (Z.of_nat done <? Z.of_nat (length section_order) - 1)%Z
      with (match rest with [] => false | _ :: _ => true end).
    2:{ simpl in Hlen. destruct rest; simpl in *.
        - symmetry. apply Z.ltb_ge. lia.
        - symmetry. apply Z.ltb_lt. lia. }
    f_equal. f_equal.
    + rewrite <- app_assoc. cbn [sections_layout_in app]. f_equal. f_equal.
      rewrite <- app_assoc. f_equal. destruct rest; reflexivity.
    + rewrite <- app_assoc. reflexivity.
Qed.

(** With no column the first section already fails. *)
Lemma section_loop_no_column (section_order : list pystr)
      (index : nat) (file_name : pystr) (todo : list (nat * pystr))
      (st : list (list value) * list pystr) :
  output_columns = [] ->
  section_loop path_join fs text_dir output_columns section_order
               ((index, file_name) :: todo) st
  = Raise IndexError.
Proof. intros ->. reflexivity. Qed.

Lemma language_part :
  (if isfile fs (path_join text_dir (str "additions.csv"))
   then r <- read_csv_rows fs (path_join text_dir (str "additions.csv")) ;;
        language_loop output_columns (snd r) ([], 0%Z)
   else Ok ([], 0%Z))
  = Ok (language_rows_in, Z.of_nat (length language_rows_in)).
Proof.
  unfold language_rows, rows_of, isfile, read_csv_rows.
  destruct (files fs (path_join text_dir (str "additions.csv"))) as [records|]; simpl.
  - rewrite (language_loop_spec output_columns (read_records_ok records)); simpl.
    now rewrite length_map.
  - reflexivity.
Qed.

(** [build_combined_rows] in full: it fails exactly when there is a
    section to write and no column to write it in. *)
Lemma build_combined_rows_spec (section_order : list pystr) :
  build_combined_rows path_join fs text_dir output_columns section_order
  = match output_columns, section_order with
    | [], _ :: _ => Raise IndexError
    | _, _ =>
      Ok (combined_layout path_join fs text_dir output_columns section_order,
          combined_warnings path_join fs text_dir output_columns section_order)
    end.
Proof.
  unfold build_combined_rows. rewrite language_part. cbn [bind fst snd].
  unfold combined_layout, combined_warnings, enumerate.
  assert (Hw : (if (Z.of_nat (length language_rows_in) =? 0)%Z
                then [NO_LANGUAGE_ROWS] else [])
               = match language_rows_in with [] => [NO_LANGUAGE_ROWS] | _ :: _ => [] end).
  { destruct language_rows_in; reflexivity. }
  rewrite Hw, empty_row_blank.
  destruct output_columns as [|c cols] eqn:Hc.
  - destruct section_order as [|file_name rest].
    + simpl. rewrite app_nil_r. reflexivity.
    + reflexivity.
  - rewrite <- Hc in *.
    rewrite (section_loop_spec section_order) with (done := 0);
      [| rewrite Hc; discriminate | reflexivity].
    cbn [fst snd]. rewrite <- app_assoc. rewrite Hc. reflexivity.
Qed.
End Assembly.

(** ** The reference parser *)

(** The loop of [parse_reference_combined] collects the marker names. *)
Lemma marker_scan (reader : csv_records) (order : list pystr) :
  fold_left
    (fun order row =>
       match row with
       | [] => order
       | cell :: _ =>
         let first := strip cell in
         if startswith first SECTION_MARKER_PREFIX && endswith first (str ".csv")
         then order ++ [strip (skipn (length SECTION_MARKER_PREFIX) first)]
         else order
       end)
    reader order
  = order ++ section_names reader.
Proof.
  revert order. unfold section_names.
  induction reader as [|row reader IH]; intros order; simpl.
  - now rewrite app_nil_r.
  - rewrite IH. destruct row as [|cell cells]; simpl.
    + reflexivity.
    + change SECTION_MARKER_PREFIX with (str "//").
      destruct (startswith (strip cell) (str "//") && endswith (strip cell) (str ".csv"));
        simpl.
      * rewrite <- app_assoc. reflexivity.
      * reflexivity.
Qed.

Lemma parse_reference_combined_spec (fs : filesystem) (reference_path : pystr) :
  parse_reference_combined fs reference_path
  = match files fs reference_path with
    | None => Raise FileNotFoundError
    | Some [] => Raise (SystemExit (str "参考 combined 为空: " ++ reference_path))
    | Some (raw_header :: reader) =>
      match section_names reader with
      | [] => Raise (SystemExit (str "未能从参考 combined 中提取任何分段顺序"))
      | order => Ok (map (fun col => normalize_header (Some col)) raw_header, order)
      end
    end.
Proof.
  unfold parse_reference_combined.
  destruct (files fs reference_path) as [[|raw_header reader]|]; try reflexivity.
  rewrite marker_scan. simpl. destruct (section_names reader); reflexivity.
Qed.

(** C3: on a reference file with at least one section marker after its
    header row, [parse_reference_combined] returns a column list as long
    as the header row, and as section list the names of the marker rows
    (first cell, trimmed, starts with // and ends with .csv; the name is
    what follows the prefix, trimmed), in the order met, duplicates
    kept. *)
Theorem parse_reference_combined_sections
        (fs : filesystem) (reference_path : pystr)
        (raw_header : list pystr) (reader : csv_records) :
  files fs reference_path = Some (raw_header :: reader) ->
  section_names reader <> [] ->
  exists header,
    parse_reference_combined fs reference_path = Ok (header, section_names reader)
    /\ length header = length raw_header
    /\ length (section_names reader) = length (filter is_section_marker reader).
Proof.
  intros Hfile Hmarkers.
  exists (map (fun col => normalize_header (Some col)) raw_header).
  rewrite parse_reference_combined_spec, Hfile.
  destruct (section_names reader) as [|name names] eqn:Hnames; [congruence|].
  repeat split.
  - apply length_map.
  - rewrite <- Hnames. unfold section_names. apply length_map.
Qed.

Lemma parse_reference_combined_sections_witness :
  exists header,
    parse_reference_combined ex_fs (str "ref.csv")
    = Ok (header, section_names (tl ex_reference))
    /\ length header = 3
    /\ length (section_names (tl ex_reference)) = 3.
Proof.
  apply (@parse_reference_combined_sections ex_fs (str "ref.csv")
           (hd [] ex_reference) (tl ex_reference)).
  - reflexivity.
  - vm_compute. discriminate.
Defined.

(** C6: [parse_reference_combined] aborts with [SystemExit] if and only
    if the reference file has no row at all or no section marker after
    its header row; with a header row and at least one marker row it
    returns. *)
Theorem parse_reference_combined_abort_iff
        (fs : filesystem) (reference_path : pystr) (records : csv_records) :
  files fs reference_path = Some records ->
  ((exists message, parse_reference_combined fs reference_path = Raise (SystemExit message))
   <-> (records = [] \/ section_names (tl records) = []))
  /\ ((exists e, parse_reference_combined fs reference_path = Raise e)
      <-> (records = [] \/ section_names (tl records) = []))
  /\ (records <> [] -> section_names (tl records) <> [] ->
      exists r, parse_reference_combined fs reference_path = Ok r).
Proof.
  intros Hfile. rewrite parse_reference_combined_spec, Hfile.
  destruct records as [|raw_header reader]; simpl.
  - repeat split; try (intros; now left); try (intros; eexists; reflexivity).
    congruence.
  - destruct (section_names reader) as [|name names] eqn:Hnames.
    + repeat split; try (intros; now right); try (intros; eexists; reflexivity).
      congruence.
    + repeat split.
      * intros [message H]. discriminate.
      * intros [H|H]; discriminate.
      * intros [e H]. discriminate.
      * intros [H|H]; discriminate.
      * intros _ _. eexists; reflexivity.
Qed.

Lemma parse_reference_combined_abort_iff_witness :
  ((exists message,
       parse_reference_combined ex_fs (str "text/items.csv") = Raise (SystemExit message))
   <-> (ex_items = [] \/ section_names (tl ex_items) = []))
  /\ ((exists e, parse_reference_combined ex_fs (str "text/items.csv") = Raise e)
      <-> (ex_items = [] \/ section_names (tl ex_items) = []))
  /\ (ex_items <> [] -> section_names (tl ex_items) <> [] ->
      exists r, parse_reference_combined ex_fs (str "text/items.csv") = Ok r).
Proof.
  apply (@parse_reference_combined_abort_iff ex_fs (str "text/items.csv") ex_items).
  reflexivity.
Defined.

(** ** Projection of a source row *)

Lemma to_output_row_nth (row : source_row) (output_columns : list pystr)
      (i : nat) (col : pystr) :
  nth_error output_columns i = Some col ->
  nth_error (to_output_row row output_columns) i
  = Some (match PyDict.get pystr_eq_dec row col with
          | Some v => v
          | None => VStr []
          end).
Proof.
  intros H. unfold to_output_row. rewrite nth_error_map, H. reflexivity.
Qed.

Lemma to_output_row_ext (row row' : source_row) (output_columns : list pystr) :
  (forall col, In col output_columns ->
               PyDict.get pystr_eq_dec row' col = PyDict.get pystr_eq_dec row col) ->
  to_output_row row' output_columns = to_output_row row output_columns.
Proof.
  intros H. unfold to_output_row. apply map_ext_in.
  intros col Hin. now rewrite H.
Qed.

(** C4: the projected row gives each output column the value the source
    row holds under that column name, the empty string when it holds
    none; what the source row holds under any other column does not
    reach the output. *)
Theorem to_output_row_projection (row : source_row) (output_columns : list pystr) :
  length (to_output_row row output_columns) = length output_columns
  /\ (forall i col,
         nth_error output_columns i = Some col ->
         nth_error (to_output_row row output_columns) i
         = Some (match PyDict.get pystr_eq_dec row col with
                 | Some v => v
                 | None => VStr []
                 end))
  /\ (forall extra v,
         ~ In extra output_columns ->
         to_output_row (PyDict.setitem pystr_eq_dec row extra v) output_columns
         = to_output_row row output_columns)
  /\ (forall row',
         (forall col, In col output_columns ->
                      PyDict.get pystr_eq_dec row' col = PyDict.get pystr_eq_dec row col) ->
         to_output_row row' output_columns = to_output_row row output_columns).
Proof.
  split; [apply to_output_row_length|].
  split; [intros i col; apply to_output_row_nth|].
  split.
  - intros extra v Hnot. apply to_output_row_ext. intros col Hin.
    rewrite PyDictFacts.get_setitem.
    destruct (pystr_eq_dec col extra) as [->|Hne]; [contradiction | reflexivity].
  - intros row'. apply to_output_row_ext.
Qed.

Lemma to_output_row_projection_witness :
  to_output_row ex_row ex_columns = [VStr (str "bar"); VStr (str "b"); VStr []]
  /\ to_output_row (PyDict.setitem pystr_eq_dec ex_row (str "NOTE") (VStr (str "other")))
                   ex_columns
     = to_output_row ex_row ex_columns.
Proof.
  split.
  - reflexivity.
  - apply (proj1 (proj2 (proj2 (to_output_row_projection ex_row ex_columns)))).
    vm_compute. intros [H|[H|[H|[]]]]; discriminate.
Defined.

(** ** The assembled rows *)

Lemma blank_row_length (output_columns : list pystr) :
  length (blank_row output_columns) = length output_columns.
Proof. unfold blank_row. apply length_map. Qed.

Lemma marker_row_length (output_columns : list pystr) (file_name : pystr) :
  output_columns <> [] ->
  length (marker_row output_columns file_name) = length output_columns.
Proof.
  intros Hne. destruct output_columns as [|c cols]; [congruence|].
  unfold marker_row. simpl. now rewrite length_map.
Qed.

Section AssemblyFacts.
Variable path_join : pystr -> pystr -> pystr.
Variable fs : filesystem.
Variable text_dir : pystr.
Variable output_columns : list pystr.

Local Notation width_ok :=
  (Forall (fun row : list value => length row = length output_columns)).

Lemma projected_rows_width (rows : list source_row) :
  width_ok (map (fun row => to_output_row row output_columns) rows).
Proof.
  apply Forall_forall. intros r Hin.
  apply in_map_iff in Hin as [row [<- _]]. apply to_output_row_length.
Qed.

Lemma sections_layout_width (section_order : list pystr) :
  output_columns <> [] ->
  width_ok (sections_layout path_join fs text_dir output_columns section_order).
Proof.
  intros Hne. induction section_order as [|file_name rest IH]; simpl.
  - constructor.
  - constructor; [now apply marker_row_length|].
    apply Forall_app. split; [apply projected_rows_width|].
    destruct rest as [|next rest']; [constructor|].
    constructor; [apply blank_row_length | exact IH].
Qed.

Lemma combined_layout_width (section_order : list pystr) :
  output_columns <> [] \/ section_order = [] ->
  width_ok (combined_layout path_join fs text_dir output_columns section_order).
Proof.
  intros Hcase. unfold combined_layout.
  apply Forall_app. split; [apply projected_rows_width|].
  constructor; [apply blank_row_length|].
  destruct Hcase as [Hne| ->]; [now apply sections_layout_width | constructor].
Qed.

(** The sections before a given one only put rows in front of it. *)
Lemma sections_layout_app (before after : list pystr) (file_name : pystr) :
  exists front,
    sections_layout path_join fs text_dir output_columns (before ++ file_name :: after)
    = front ++ sections_layout path_join fs text_dir output_columns (file_name :: after).
Proof.
  induction before as [|b before [front IH]].
  - exists []. reflexivity.
  - exists (marker_row output_columns b
            :: section_rows path_join fs text_dir output_columns b
            ++ blank_row output_columns :: front).
    cbn [app sections_layout].
    destruct (before ++ file_name :: after) as [|x l] eqn:Happ.
    + now destruct before.
    + rewrite IH. cbn [app]. rewrite <- app_assoc. reflexivity.
Qed.

Lemma missing_warnings_In (section_order : list pystr) (file_name : pystr) :
  In file_name section_order ->
  files fs (path_join text_dir file_name) = None ->
  In (MISSING_FILE ++ file_name) (missing_warnings path_join fs text_dir section_order).
Proof.
  intros Hin Hnone. unfold missing_warnings. apply in_flat_map.
  exists file_name. split; [assumption|].
  unfold isfile. rewrite Hnone. now left.
Qed.

Lemma build_combined_rows_Ok (section_order : list pystr)
      (rows : list (list value)) (warnings : list pystr) :
  build_combined_rows path_join fs text_dir output_columns section_order
  = Ok (rows, warnings) ->
  (output_columns <> [] \/ section_order = [])
  /\ rows = combined_layout path_join fs text_dir output_columns section_order
  /\ warnings = combined_warnings path_join fs text_dir output_columns section_order.
Proof.
  rewrite build_combined_rows_spec.
  destruct output_columns as [|c cols]; destruct section_order as [|s order];
    intros H; try discriminate; injection H as <- <-;
      (split; [|split; reflexivity]); (now right) || (left; discriminate).
Qed.

Lemma build_combined_rows_total (section_order : list pystr) :
  output_columns <> [] ->
  build_combined_rows path_join fs text_dir output_columns section_order
  = Ok (combined_layout path_join fs text_dir output_columns section_order,
        combined_warnings path_join fs text_dir output_columns section_order).
Proof.
  intros Hne. rewrite build_combined_rows_spec.
  destruct output_columns; [congruence | reflexivity].
Qed.
End AssemblyFacts.

(** C1: for a non-empty column list and a non-empty section order the
    rows returned by [build_combined_rows] are, in this order: the
    projected language rows of additions.csv, one blank row, then for
    each section its marker row, its projected data rows, and a blank
    separator after every section but the last. *)
Theorem build_combined_rows_shape
        (path_join : pystr -> pystr -> pystr) (fs : filesystem)
        (text_dir : pystr) (output_columns section_order : list pystr) :
  output_columns <> [] ->
  section_order <> [] ->
  exists warnings,
    build_combined_rows path_join fs text_dir output_columns section_order
    = Ok (language_rows path_join fs text_dir output_columns
            ++ blank_row output_columns
            :: sections_layout path_join fs text_dir output_columns section_order,
          warnings).
Proof.
  intros Hcols _. eexists. now apply build_combined_rows_total.
Qed.

Lemma build_combined_rows_shape_witness :
  exists warnings,
    build_combined_rows ex_join ex_fs (str "text") ex_columns ex_order
    = Ok (language_rows ex_join ex_fs (str "text") ex_columns
            ++ blank_row ex_columns
            :: sections_layout ex_join ex_fs (str "text") ex_columns ex_order,
          warnings).
Proof.
  apply (@build_combined_rows_shape ex_join ex_fs (str "text") ex_columns ex_order);
    discriminate.
Defined.

(** C9: every row returned by [build_combined_rows] has as many cells as
    there are output columns. *)
Theorem build_combined_rows_width
        (path_join : pystr -> pystr -> pystr) (fs : filesystem)
        (text_dir : pystr) (output_columns section_order : list pystr)
        (rows : list (list value)) (warnings : list pystr) :
  build_combined_rows path_join fs text_dir output_columns section_order
  = Ok (rows, warnings) ->
  Forall (fun row => length row = length output_columns) rows.
Proof.
  intros H. apply build_combined_rows_Ok in H as [Hcase [-> _]].
  now apply combined_layout_width.
Qed.

(** C10: with a non-empty column list [build_combined_rows] returns; the
    write of the marker text into the first cell of a marker row is in
    bounds. *)
Theorem build_combined_rows_returns
        (path_join : pystr -> pystr -> pystr) (fs : filesystem)
        (text_dir : pystr) (output_columns section_order : list pystr) :
  output_columns <> [] ->
  (forall file_name, exists row,
       setitem0 (empty_row output_columns) (VStr (str "// " ++ file_name)) = Ok row)
  /\ exists rows warnings,
      build_combined_rows path_join fs text_dir output_columns section_order
      = Ok (rows, warnings).
Proof.
  intros Hcols. split.
  - intros file_name. eexists. now apply setitem0_marker.
  - do 2 eexists. now apply build_combined_rows_total.
Qed.

Lemma build_combined_rows_returns_witness :
  (forall file_name, exists row,
       setitem0 (empty_row ex_columns) (VStr (str "// " ++ file_name)) = Ok row)
  /\ exists rows warnings,
      build_combined_rows ex_join ex_fs (str "text") ex_columns ex_order
      = Ok (rows, warnings).
Proof.
  apply (@build_combined_rows_returns ex_join ex_fs (str "text") ex_columns ex_order).
  discriminate.
Defined.

Lemma build_combined_rows_width_witness :
  Forall (fun row => length row = length ex_columns)
         (combined_layout ex_join ex_fs (str "text") ex_columns ex_order).
Proof.
  apply (@build_combined_rows_width ex_join ex_fs (str "text") ex_columns ex_order
           (combined_layout ex_join ex_fs (str "text") ex_columns ex_order)
           (combined_warnings ex_join ex_fs (str "text") ex_columns ex_order)).
  vm_compute. reflexivity.
Defined.

(** ** Missing section files *)

Lemma section_rows_missing
      (path_join : pystr -> pystr -> pystr) (fs : filesystem)
      (text_dir : pystr) (output_columns : list pystr) (file_name : pystr) :
  files fs (path_join text_dir file_name) = None ->
  section_rows path_join fs text_dir output_columns file_name = [].
Proof.
  intros Hnone. unfold section_rows, rows_of. rewrite Hnone.
  destruct (pystr_eqb file_name (str "additions.csv")); reflexivity.
Qed.

(** C7, as stated, fails when the column list is empty: the marker row
    cannot be built, whether the section file is there or not. *)
Lemma missing_section_without_columns :
  files ex_fs (ex_join (str "text") (str "missing.csv")) = None
  /\ build_combined_rows ex_join ex_fs (str "text") [] [str "missing.csv"]
     = Raise IndexError.
Proof. split; reflexivity. Qed.

(** C7, amended: with a non-empty column list, a section whose file is
    missing from the source directory does not make [build_combined_rows]
    raise.  Its marker row is written and no data row follows it: next
    comes the separator and the remaining sections, or nothing when it is
    the last.  The warnings returned hold one that ends with the file
    name. *)
Theorem missing_section_kept_empty
        (path_join : pystr -> pystr -> pystr) (fs : filesystem)
        (text_dir : pystr) (output_columns : list pystr)
        (before after : list pystr) (file_name : pystr) :
  output_columns <> [] ->
  files fs (path_join text_dir file_name) = None ->
  exists front warnings,
    build_combined_rows path_join fs text_dir output_columns
                        (before ++ file_name :: after)
    = Ok (front ++ marker_row output_columns file_name
                :: match after with
                   | [] => []
                   | _ :: _ =>
                     blank_row output_columns
                     :: sections_layout path_join fs text_dir output_columns after
                   end,
          warnings)
    /\ In (MISSING_FILE ++ file_name) warnings.
Proof.
  intros Hcols Hnone.
  destruct (sections_layout_app path_join fs text_dir output_columns
                                before after file_name) as [front Hfront].
  exists (language_rows path_join fs text_dir output_columns
          ++ blank_row output_columns :: front).
  eexists. split.
  - rewrite build_combined_rows_total by assumption.
    unfold combined_layout. rewrite Hfront. cbn [sections_layout].
    rewrite (section_rows_missing _ _ _ _ _ Hnone).
    cbn [app]. rewrite <- app_assoc. reflexivity.
  - unfold combined_warnings. apply in_or_app. right.
    apply missing_warnings_In; [|assumption].
    apply in_or_app. right. now left.
Qed.

Lemma missing_section_kept_empty_witness :
  exists front warnings,
    build_combined_rows ex_join ex_fs (str "text") ex_columns
                        ([str "items.csv"] ++ str "missing.csv" :: [str "additions.csv"])
    = Ok (front ++ marker_row ex_columns (str "missing.csv")
                :: blank_row ex_columns
                :: sections_layout ex_join ex_fs (str "text") ex_columns
                                   [str "additions.csv"],
          warnings)
    /\ In (MISSING_FILE ++ str "missing.csv") warnings.
Proof.
  apply (@missing_section_kept_empty ex_join ex_fs (str "text") ex_columns
           [str "items.csv"] [str "additions.csv"] (str "missing.csv")).
  - discriminate.
  - reflexivity.
Defined.

(** ** Language rows *)

Lemma filter_partition_perm (A : Type) (p : A -> bool) (l : list A) :
  Permutation l (filter p l ++ filter (fun a => negb (p a)) l).
Proof.
  induction l as [|a l IH]; simpl.
  - constructor.
  - destruct (p a); simpl.
    + now constructor.
    + now apply Permutation_cons_app.
Qed.



Lemma kept_other (file_name : pystr) (rows : list source_row) :
  file_name <> str "additions.csv" ->
  filter (kept file_name) rows = rows.
Proof.
  intros Hne. rewrite <- (filter_all rows) at 2.
  apply filter_ext. intros row. unfold kept.
  now rewrite (pystr_eqb_neq Hne).
Qed.

(** ** The whole run depends on the files it reads, and on nothing else *)

Section Runs.
Variable path_join : pystr -> pystr -> pystr.
Variable path_abspath : pystr -> pystr.
Variable path_isabs : pystr -> bool.
Variable csv_writer : list (list value) -> list N.

Variables fs1 fs2 : filesystem.

Lemma parse_reference_combined_agree (reference_path : pystr) :
  files fs1 reference_path = files fs2 reference_path ->
  parse_reference_combined fs1 reference_path
  = parse_reference_combined fs2 reference_path.
Proof.
  intros H. rewrite !parse_reference_combined_spec, H. reflexivity.
Qed.

Section SameDirectory.
Variable text_dir : pystr.
Hypothesis same_files :
  forall name, files fs1 (path_join text_dir name) = files fs2 (path_join text_dir name).

Lemma rows_of_agree (file_name : pystr) :
  rows_of path_join fs1 text_dir file_name = rows_of path_join fs2 text_dir file_name.
Proof. unfold rows_of. now rewrite same_files. Qed.

Lemma sections_layout_agree (output_columns section_order : list pystr) :
  sections_layout path_join fs1 text_dir output_columns section_order
  = sections_layout path_join fs2 text_dir output_columns section_order.
Proof.
  induction section_order as [|file_name rest IH]; simpl; [reflexivity|].
  unfold section_rows. rewrite rows_of_agree, IH. reflexivity.
Qed.

Lemma missing_warnings_agree (section_order : list pystr) :
  missing_warnings path_join fs1 text_dir section_order
  = missing_warnings path_join fs2 text_dir section_order.
Proof.
  unfold missing_warnings. apply flat_map_ext. intros name.
  unfold isfile. now rewrite same_files.
Qed.

Lemma build_combined_rows_agree (output_columns section_order : list pystr) :
  build_combined_rows path_join fs1 text_dir output_columns section_order
  = build_combined_rows path_join fs2 text_dir output_columns section_order.
Proof.
  rewrite !build_combined_rows_spec.
  unfold combined_layout, combined_warnings, language_rows.
  now rewrite rows_of_agree, sections_layout_agree, missing_warnings_agree.
Qed.
End SameDirectory.
End Runs.

(** C8: two runs with the same arguments, on file systems that agree on
    the reference file and on the content of the source directory, end
    alike: the same failure, or the same bytes written to the same output
    path, with the same figures and warnings. *)
Theorem main_deterministic
        (path_join : pystr -> pystr -> pystr) (path_abspath : pystr -> pystr)
        (path_isabs : pystr -> bool) (csv_writer : list (list value) -> list N)
        (fs1 fs2 : filesystem) (args : arguments) :
  isdir fs1 (path_abspath (arg_text_dir args))
  = isdir fs2 (path_abspath (arg_text_dir args)) ->
  files fs1 (path_abspath (arg_reference_combined args))
  = files fs2 (path_abspath (arg_reference_combined args)) ->
  (forall name,
      files fs1 (path_join (path_abspath (arg_text_dir args)) name)
      = files fs2 (path_join (path_abspath (arg_text_dir args)) name)) ->
  main path_join path_abspath path_isabs csv_writer fs1 args
  = main path_join path_abspath path_isabs csv_writer fs2 args.
Proof.
  intros Hdir Href Hfiles. unfold main.
  rewrite Hdir. unfold isfile. rewrite Href.
  rewrite (parse_reference_combined_agree fs1 fs2 _ Href).
  destruct (negb (isdir fs2 (path_abspath (arg_text_dir args)))); [reflexivity|].
  destruct (negb match files fs2 (path_abspath (arg_reference_combined args)) with
                 | Some _ => true
                 | None => false
                 end); [reflexivity|].
  destruct (parse_reference_combined fs2 (path_abspath (arg_reference_combined args)))
    as [[output_columns section_order]|e]; [|reflexivity].
  cbn [bind fst snd].
  rewrite (build_combined_rows_agree path_join fs1 fs2 _ Hfiles).
  reflexivity.
Qed.

Lemma ex_join_not_notes (name : pystr) :
  pystr_eqb (ex_join (str "text") name) (str "notes.txt") = false.
Proof.
  apply pystr_eqb_neq. unfold ex_join.
  change (str "text") with [116; 101; 120; 116]%N.
  change (str "notes.txt") with [110; 111; 116; 101; 115; 46; 116; 120; 116]%N.
  discriminate.
Qed.

Lemma main_deterministic_witness :
  main ex_join (fun p => p) (fun _ => false) ex_writer ex_fs ex_args
  = main ex_join (fun p => p) (fun _ => false) ex_writer ex_fs' ex_args.
Proof.
  apply (@main_deterministic ex_join (fun p => p) (fun _ => false) ex_writer
           ex_fs ex_fs' ex_args).
  - reflexivity.
  - reflexivity.
  - intros name. cbn [ex_args arg_text_dir ex_fs' files].
    now rewrite ex_join_not_notes.
Defined.

(** * Further properties of the script *)

(** ** Stripping *)

Lemma dropwhile_head (p : N -> bool) (s : pystr) :
  match dropwhile p s with
  | [] => True
  | c :: _ => p c = false
  end.
Proof.
  induction s as [|c s IH]; simpl; [exact I|].
  destruct (p c) eqn:Hc; [exact IH | exact Hc].
Qed.

Lemma dropwhile_stop (p : N -> bool) (c : N) (s : pystr) :
  p c = false -> dropwhile p (c :: s) = c :: s.
Proof. intros H. simpl. now rewrite H. Qed.

Lemma dropwhile_app_stop (p : N -> bool) (r : pystr) (c : N) (s : pystr) :
  p c = false -> dropwhile p (r ++ c :: s) = dropwhile p r ++ c :: s.
Proof.
  intros Hc. induction r as [|a r IH]; simpl.
  - now rewrite Hc.
  - destruct (p a); [exact IH | reflexivity].
Qed.

Lemma dropwhile_idem (p : N -> bool) (s : pystr) :
  dropwhile p (dropwhile p s) = dropwhile p s.
Proof.
  pose proof (dropwhile_head p s) as H.
  destruct (dropwhile p s) as [|c t]; [reflexivity | now apply dropwhile_stop].
Qed.

(** Stripping a string that ends with a block free of white space at
    both ends only drops white space in front. *)
Lemma strip_app_block (r : pystr) (block : pystr) (first last : N)
      (middle back : pystr) :
  block = first :: middle ->
  rev block = last :: back ->
  isspace first = false -> isspace last = false ->
  strip (r ++ block) = dropwhile isspace r ++ block.
Proof.
  intros Hfirst Hlast Hf Hl. unfold strip.
  rewrite Hfirst at 1. rewrite dropwhile_app_stop by assumption.
  rewrite <- Hfirst. rewrite rev_app_distr, Hlast.
  rewrite <- app_comm_cons, dropwhile_stop by assumption.
  rewrite app_comm_cons, <- Hlast.
  now rewrite <- rev_app_distr, rev_involutive.
Qed.

Lemma startswith_app (p r : pystr) : startswith (p ++ r) p = true.
Proof.
  induction p as [|a p IH]; simpl.
  - now destruct r.
  - now rewrite N.eqb_refl.
Qed.

Lemma startswith_inv (s p : pystr) :
  startswith s p = true -> exists r, s = p ++ r.
Proof.
  revert s. induction p as [|a p IH]; intros s H.
  - exists s. reflexivity.
  - destruct s as [|b s]; [discriminate|]. simpl in H.
    apply andb_true_iff in H as [Hab Hs]. apply N.eqb_eq in Hab. subst b.
    destruct (IH _ Hs) as [r ->]. exists r. reflexivity.
Qed.

Lemma endswith_app (r p : pystr) : endswith (r ++ p) p = true.
Proof. unfold endswith. rewrite rev_app_distr. apply startswith_app. Qed.

Lemma endswith_inv (s p : pystr) :
  endswith s p = true -> exists r, s = r ++ p.
Proof.
  unfold endswith. intros H. apply startswith_inv in H as [r Hr].
  exists (rev r). apply (f_equal (@rev N)) in Hr.
  now rewrite rev_involutive, rev_app_distr, rev_involutive in Hr.
Qed.

Lemma strip_csv (r : pystr) :
  strip (r ++ str ".csv") = dropwhile isspace r ++ str ".csv".
Proof.
  apply strip_app_block
    with (first := 46%N) (last := 118%N) (middle := str "csv") (back := str "sc.");
    reflexivity.
Qed.

(** ** Header names *)

Lemma lstrip_BOM_head (s : pystr) :
  match lstrip_chars BOM s with
  | [] => True
  | c :: _ => c <> 65279%N
  end.
Proof.
  unfold lstrip_chars.
  pose proof (dropwhile_head (fun c => existsb (N.eqb c) BOM) s) as H.
  destruct (dropwhile _ s) as [|c t]; [exact I|].
  simpl in H. intros ->. discriminate.
Qed.

(** X1: [normalize_header] removes every leading U+FEFF: its result
    never starts with one, a second pass changes nothing, and a name that
    does not start with one is returned as it is. *)
Theorem normalize_header_BOM_free (field : option pystr) :
  (forall rest, normalize_header field <> 65279%N :: rest)
  /\ normalize_header (Some (normalize_header field)) = normalize_header field
  /\ (forall c rest, c <> 65279%N ->
                     normalize_header (Some (c :: rest)) = c :: rest)
  /\ normalize_header None = []
  /\ (forall s, normalize_header (Some (65279%N :: s)) = normalize_header (Some s)).
Proof.
  repeat split.
  - intros rest Heq. unfold normalize_header in Heq.
    pose proof (lstrip_BOM_head (match field with Some s => s | None => [] end)) as H.
    rewrite Heq in H. now apply H.
  - unfold normalize_header, lstrip_chars. apply dropwhile_idem.
  - intros c rest Hc. unfold normalize_header, lstrip_chars.
    apply dropwhile_stop. simpl. apply N.eqb_neq in Hc. now rewrite Hc.
Qed.

(** ** Section names *)

Lemma marker_name_csv (cell : pystr) :
  startswith (strip cell) (str "//") && endswith (strip cell) (str ".csv") = true ->
  exists r, strip (skipn 2 (strip cell)) = dropwhile isspace r ++ str ".csv".
Proof.
  intros H. apply andb_true_iff in H as [Hs He].
  apply startswith_inv in Hs as [t Ht]. apply endswith_inv in He as [r Hr].
  rewrite Ht in Hr. rewrite Ht.
  change (skipn 2 (str "//" ++ t)) with t.
  change (str "//" ++ t) with (47%N :: 47%N :: t) in Hr.
  change (str ".csv") with [46%N; 99%N; 115%N; 118%N] in Hr.
  destruct r as [|a [|b r]]; simpl in Hr; try discriminate.
  injection Hr as _ _ ->. exists r. apply strip_csv.
Qed.

Lemma strip_trimmed_csv (r : pystr) :
  strip (dropwhile isspace r ++ str ".csv") = dropwhile isspace r ++ str ".csv".
Proof. rewrite strip_csv. now rewrite dropwhile_idem. Qed.

Lemma section_names_well_formed (rows : csv_records) :
  Forall (fun name => endswith name (str ".csv") = true /\ strip name = name)
         (section_names rows).
Proof.
  unfold section_names. apply Forall_forall. intros name Hin.
  apply in_map_iff in Hin as [row [<- Hin]].
  apply filter_In in Hin as [_ Hmarker].
  destruct row as [|cell cells]; [discriminate|]. simpl in Hmarker.
  destruct (marker_name_csv cell Hmarker) as [r Hr]. unfold marker_name. rewrite Hr.
  split; [apply endswith_app | apply strip_trimmed_csv].
Qed.

(** X2: every section name [parse_reference_combined] returns ends with
    .csv and carries no white space around it, and no column name it
    returns starts with U+FEFF. *)
Theorem parse_reference_combined_well_formed
        (fs : filesystem) (reference_path : pystr)
        (header order : list pystr) :
  parse_reference_combined fs reference_path = Ok (header, order) ->
  Forall (fun name => endswith name (str ".csv") = true /\ strip name = name) order
  /\ Forall (fun col => forall rest, col <> 65279%N :: rest) header.
Proof.
  rewrite parse_reference_combined_spec.
  destruct (files fs reference_path) as [[|raw_header reader]|]; try discriminate.
  pose proof (section_names_well_formed reader) as Hnames.
  destruct (section_names reader) as [|name names]; [discriminate|].
  intros [= <- <-]. split; [assumption|].
  apply Forall_forall. intros col Hin.
  apply in_map_iff in Hin as [raw [<- _]].
  intros rest Heq. unfold normalize_header in Heq.
  pose proof (lstrip_BOM_head raw) as H. rewrite Heq in H. now apply H.
Qed.

Lemma normalize_header_BOM_free_witness :
  normalize_header (Some (str "KEY")) = str "KEY".
Proof.
  apply (proj1 (proj2 (proj2 (normalize_header_BOM_free None))) 75%N (str "EY")).
  discriminate.
Defined.

Lemma parse_reference_combined_well_formed_witness :
  Forall (fun name => endswith name (str ".csv") = true /\ strip name = name)
         (section_names (tl ex_reference))
  /\ Forall (fun col => forall rest, col <> 65279%N :: rest)
            (map (fun col => normalize_header (Some col)) (hd [] ex_reference)).
Proof.
  apply (@parse_reference_combined_well_formed ex_fs (str "ref.csv")
           (map (fun col => normalize_header (Some col)) (hd [] ex_reference))
           (section_names (tl ex_reference))).
  vm_compute. reflexivity.
Defined.

(** The text of a marker row is read back as the name it was written
    for, when the name is one the parser can return. *)
Lemma marker_text_read_back (name : pystr) (cells : list pystr) :
  endswith name (str ".csv") = true ->
  strip name = name ->
  is_section_marker ((str "// " ++ name) :: cells) = true
  /\ marker_name ((str "// " ++ name) :: cells) = name.
Proof.
  intros Hend Htrim. apply endswith_inv in Hend as [r ->].
  assert (Hcell : strip (str "// " ++ r ++ str ".csv") = str "// " ++ r ++ str ".csv").
  { rewrite app_assoc, strip_csv. reflexivity. }
  unfold is_section_marker, marker_name. rewrite Hcell. split.
  - apply andb_true_iff. split.
    + change (str "// " ++ r ++ str ".csv") with (str "//" ++ (32%N :: r ++ str ".csv")).
      apply startswith_app.
    + rewrite app_assoc. apply endswith_app.
  - change (skipn 2 (str "// " ++ r ++ str ".csv")) with ((32%N :: r) ++ str ".csv").
    rewrite strip_csv. change (dropwhile isspace (32%N :: r)) with (dropwhile isspace r).
    now rewrite <- strip_csv.
Qed.

Lemma section_names_of_markers (order : list pystr) (cells : list pystr) :
  Forall (fun name => endswith name (str ".csv") = true /\ strip name = name) order ->
  section_names (map (fun name => (str "// " ++ name) :: cells) order) = order.
Proof.
  unfold section_names. induction 1 as [|name order [Hend Htrim] Horder IH].
  - reflexivity.
  - destruct (marker_text_read_back cells Hend Htrim) as [Hm Hn].
    cbn [map filter]. rewrite Hm. cbn [map]. rewrite Hn. now rewrite IH.
Qed.

(** X3: the section order survives writing and reading: a file whose
    rows after the header are the marker rows [// name], written for the
    names [parse_reference_combined] returned from some reference, is
    parsed into the same section order. *)
Theorem section_order_read_back
        (fs fs' : filesystem) (reference_path path' : pystr)
        (header order raw_header' cells : list pystr) :
  parse_reference_combined fs reference_path = Ok (header, order) ->
  files fs' path'
  = Some (raw_header' :: map (fun name => (str "// " ++ name) :: cells) order) ->
  parse_reference_combined fs' path'
  = Ok (map (fun col => normalize_header (Some col)) raw_header', order).
Proof.
  intros Hparse Hfile.
  assert (Hwf : Forall (fun name => endswith name (str ".csv") = true
                                    /\ strip name = name) order
                /\ order <> []).
  { rewrite parse_reference_combined_spec in Hparse.
    destruct (files fs reference_path) as [[|raw_header reader]|]; try discriminate.
    pose proof (section_names_well_formed reader) as Hnames.
    destruct (section_names reader) as [|name names]; [discriminate|].
    injection Hparse as _ <-. split; [assumption | discriminate]. }
  destruct Hwf as [Hwf Hne].
  rewrite parse_reference_combined_spec, Hfile, (section_names_of_markers cells Hwf).
  destruct order; [congruence | reflexivity].
Qed.

(** ** More on dictionaries *)

Module PyDictLaws.
Section Laws.
Variables K V : Type.
Variable K_eq_dec : forall a b : K, {a = b} + {a <> b}.

Lemma setitem_fresh (d : PyDict.t K V) k v :
  ~ In k (map fst d) -> PyDict.setitem K_eq_dec d k v = d ++ [(k, v)].
Proof.
  induction d as [|[k' v'] d IH]; simpl; intros Hnot.
  - reflexivity.
  - destruct (K_eq_dec k k') as [->|Hne].
    + exfalso. apply Hnot. now left.
    + rewrite IH; [reflexivity|]. intros Hin. apply Hnot. now right.
Qed.

Lemma fold_setitem_nodup (A : Type) (f : A -> K * V) (l : list A) :
  forall acc : PyDict.t K V,
    NoDup (map fst (acc ++ map f l)) ->
    fold_left (fun d a => PyDict.setitem K_eq_dec d (fst (f a)) (snd (f a))) l acc
    = acc ++ map f l.
Proof.
  induction l as [|a l IH]; intros acc Hnd; simpl.
  - now rewrite app_nil_r.
  - assert (Hfresh : ~ In (fst (f a)) (map fst acc)).
    { rewrite map_app in Hnd. simpl in Hnd.
      apply NoDup_remove_2 in Hnd. intros Hin. apply Hnd.
      apply in_or_app. now left. }
    rewrite setitem_fresh by exact Hfresh. rewrite <- surjective_pairing.
    rewrite IH; rewrite <- app_assoc; [reflexivity | exact Hnd].
Qed.

Lemma get_head (d : PyDict.t K V) k v :
  PyDict.get K_eq_dec ((k, v) :: d) k = Some v.
Proof. simpl. destruct (K_eq_dec k k); [reflexivity | congruence]. Qed.

Lemma get_tail (d : PyDict.t K V) k v k' :
  k' <> k -> PyDict.get K_eq_dec ((k, v) :: d) k' = PyDict.get K_eq_dec d k'.
Proof. intros Hne. simpl. destruct (K_eq_dec k' k); [congruence | reflexivity]. Qed.

Lemma get_absent (d : PyDict.t K V) k :
  ~ In k (map fst d) -> PyDict.get K_eq_dec d k = None.
Proof.
  induction d as [|[k' v'] d IH]; simpl; intros Hnot; [reflexivity|].
  destruct (K_eq_dec k k') as [->|Hne].
  - exfalso. apply Hnot. now left.
  - apply IH. intros Hin. apply Hnot. now right.
Qed.

(** Looking up, in turn, the keys of a dictionary built from distinct
    keys gives back its values. *)
Lemma get_combine_keys (dflt : V) (ks : list K) :
  NoDup ks ->
  forall vs : list V, length ks = length vs ->
    map (fun k => match PyDict.get K_eq_dec (combine ks vs) k with
                  | Some v => v
                  | None => dflt
                  end) ks = vs.
Proof.
  induction 1 as [|k ks Hnot Hnd IH]; intros [|v vs] Hlen; try discriminate.
  - reflexivity.
  - cbn [combine map]. rewrite get_head. f_equal.
    etransitivity; [|apply (IH vs); simpl in Hlen; lia].
    apply map_ext_in. intros k' Hin.
    rewrite get_tail; [reflexivity|]. intros ->. contradiction.
Qed.

Lemma get_combine_nth (ks : list K) :
  NoDup ks ->
  forall (vs : list V) (i : nat) (k : K),
    length ks = length vs -> nth_error ks i = Some k ->
    PyDict.get K_eq_dec (combine ks vs) k = nth_error vs i.
Proof.
  induction 1 as [|k0 ks Hnot Hnd IH]; intros [|v vs] i k Hlen Hi;
    try discriminate; destruct i as [|i]; simpl in Hi; try discriminate.
  - injection Hi as <-. cbn [combine]. now rewrite get_head.
  - cbn [combine nth_error]. rewrite get_tail.
    + apply IH; [simpl in Hlen; lia | assumption].
    + intros ->. apply Hnot. eapply nth_error_In; eassumption.
Qed.

Lemma setitem_keeps_key (d : PyDict.t K V) k v k' :
  k' = k \/ PyDict.get K_eq_dec d k' <> None ->
  PyDict.get K_eq_dec (PyDict.setitem K_eq_dec d k v) k' <> None.
Proof.
  intros H. rewrite PyDictFacts.get_setitem.
  destruct (K_eq_dec k' k) as [->|Hne]; [discriminate|].
  destruct H as [H|H]; [contradiction | assumption].
Qed.

Lemma fold_setitem_has_key (A : Type) (f : A -> K * V) (l : list A) k :
  forall d : PyDict.t K V,
    (exists a, In a l /\ fst (f a) = k) \/ PyDict.get K_eq_dec d k <> None ->
    PyDict.get K_eq_dec
      (fold_left (fun d a => PyDict.setitem K_eq_dec d (fst (f a)) (snd (f a))) l d) k
    <> None.
Proof.
  induction l as [|a l IH]; intros d H; simpl.
  - destruct H as [[a [[] _]]|H]. assumption.
  - apply IH. destruct H as [[b [[<-|Hin] Hk]]|H].
    + right. apply setitem_keeps_key. left. now symmetry.
    + left. exists b. now split.
    + right. apply setitem_keeps_key. now right.
Qed.

Lemma get_In (d : PyDict.t K V) k :
  PyDict.get K_eq_dec d k <> None -> exists v, In (k, v) d.
Proof.
  induction d as [|[k' v'] d IH]; simpl; [congruence|].
  destruct (K_eq_dec k k') as [->|Hne].
  - intros _. exists v'. now left.
  - intros H. destruct (IH H) as [v Hv]. exists v. now right.
Qed.
End Laws.
End PyDictLaws.

Lemma map_fst_combine (A B : Type) (l : list A) :
  forall l' : list B, length l = length l' -> map fst (combine l l') = l.
Proof.
  induction l as [|a l IH]; intros [|b l'] Hlen; try discriminate; simpl.
  - reflexivity.
  - rewrite IH; [reflexivity | simpl in Hlen; lia].
Qed.

Lemma map_combine (A B C D : Type) (f : A -> C) (g : B -> D) (l : list A) :
  forall l' : list B,
    map (fun ab => (f (fst ab), g (snd ab))) (combine l l')
    = combine (map f l) (map g l').
Proof.
  induction l as [|a l IH]; intros [|b l']; simpl; try reflexivity.
  now rewrite IH.
Qed.

Lemma NoDup_map_source (A B : Type) (f : A -> B) (l : list A) :
  NoDup (map f l) -> NoDup l.
Proof.
  induction l as [|a l IH]; simpl; intros H; [constructor|].
  inversion H as [|? ? Hnot Hnd]; subst. constructor.
  - intros Hin. apply Hnot. now apply in_map.
  - now apply IH.
Qed.

Lemma NoDup_map_Some (A : Type) (l : list A) : NoDup l -> NoDup (map Some l).
Proof.
  induction 1 as [|a l Hnot Hnd IH]; simpl; constructor; [|assumption].
  intros Hin. apply in_map_iff in Hin as [b [[= ->] Hb]]. contradiction.
Qed.

Lemma section_order_read_back_witness :
  parse_reference_combined ex_markers_fs (str "copy.csv")
  = Ok (map (fun col => normalize_header (Some col)) [str "KEY"; str "EN"],
        section_names (tl ex_reference)).
Proof.
  apply (@section_order_read_back ex_fs ex_markers_fs (str "ref.csv") (str "copy.csv")
           (map (fun col => normalize_header (Some col)) (hd [] ex_reference))
           (section_names (tl ex_reference)) [str "KEY"; str "EN"] [[]]).
  - vm_compute. reflexivity.
  - reflexivity.
Defined.

(** ** Rows read from a file *)

Lemma fix_row_fold (row : reader_row) (fixed : source_row) :
  fold_left fix_item row fixed
  = fold_left (fun d item => PyDict.setitem pystr_eq_dec d (fst (fixed_item item))
                                            (snd (fixed_item item))) row fixed.
Proof.
  revert fixed. induction row as [|[k v] row IH]; intros fixed; simpl.
  - reflexivity.
  - rewrite IH. reflexivity.
Qed.

(** A row as long as the header, under column names that stay distinct
    once normalised, is read field by field. *)
Lemma read_row_regular (fieldnames row : list pystr) :
  NoDup (map (fun name => normalize_header (Some name)) fieldnames) ->
  length row = length fieldnames ->
  fix_row (DictReader_next fieldnames row)
  = combine (map (fun name => normalize_header (Some name)) fieldnames)
            (map VStr row).
Proof.
  intros Hnd Hlen.
  assert (Hkeys : map fst (map fixed_item (combine (map Some fieldnames) (map RStr row)))
                  = map (fun name => normalize_header (Some name)) fieldnames).
  { rewrite map_map. unfold fixed_item. cbn [fst].
    rewrite <- (map_map fst normalize_header), map_fst_combine, map_map by
        (now rewrite !length_map).
    reflexivity. }
  assert (Hd : DictReader_next fieldnames row
               = combine (map Some fieldnames) (map RStr row)).
  { unfold DictReader_next. rewrite Hlen, Nat.ltb_irrefl.
    unfold PyDict.of_pairs.
    rewrite (PyDictLaws.fold_setitem_nodup reader_key_eq_dec
               (fun kv : option pystr * reader_value => kv)).
    - now rewrite map_id.
    - rewrite map_id. cbn [app].
      rewrite map_fst_combine by (now rewrite !length_map).
      apply NoDup_map_Some. eapply NoDup_map_source. exact Hnd. }
  unfold fix_row, PyDict.items. rewrite Hd, fix_row_fold.
  rewrite (PyDictLaws.fold_setitem_nodup pystr_eq_dec fixed_item)
    by (cbn [app]; now rewrite Hkeys).
  cbn [app]. unfold fixed_item.
  rewrite (map_combine normalize_header fixed_value), !map_map. reflexivity.
Qed.

(** X4: in a file whose column names stay distinct once normalised, a
    row as long as the header is read field by field: [read_csv_rows]
    stores the i-th field, unchanged, under the i-th column name, and
    nothing under any other name. *)
Theorem read_csv_rows_field
        (fieldnames : list pystr) (rest : csv_records) (row : list pystr) :
  fieldnames <> [] ->
  NoDup (map (fun name => normalize_header (Some name)) fieldnames) ->
  In row rest ->
  length row = length fieldnames ->
  exists source_row,
    In source_row (snd (read_records (fieldnames :: rest)))
    /\ (forall i name,
           nth_error fieldnames i = Some name ->
           PyDict.get pystr_eq_dec source_row (normalize_header (Some name))
           = option_map VStr (nth_error row i))
    /\ (forall col,
           ~ In col (map (fun name => normalize_header (Some name)) fieldnames) ->
           PyDict.get pystr_eq_dec source_row col = None).
Proof.
  intros Hne Hnd Hin Hlen.
  exists (fix_row (DictReader_next fieldnames row)). split; [|split].
  - destruct fieldnames as [|f fs]; [congruence|]. cbn [read_records snd].
    apply in_map_iff. exists row. split; [reflexivity|].
    apply filter_In. split; [assumption|].
    destruct row; [discriminate | reflexivity].
  - intros i name Hi. rewrite read_row_regular by assumption.
    rewrite (@PyDictLaws.get_combine_nth _ _ pystr_eq_dec _ Hnd (map VStr row) i).
    + apply nth_error_map.
    + now rewrite !length_map.
    + rewrite nth_error_map, Hi. reflexivity.
  - intros col Hnot. rewrite read_row_regular by assumption.
    apply PyDictLaws.get_absent.
    rewrite map_fst_combine by (now rewrite !length_map). exact Hnot.
Qed.

Lemma read_csv_rows_field_witness :
  exists source_row,
    In source_row (snd (read_records ex_items))
    /\ (forall i name,
           nth_error ex_item_columns i = Some name ->
           PyDict.get pystr_eq_dec source_row (normalize_header (Some name))
           = option_map VStr (nth_error [str "bar"; str "b"; str "n"] i))
    /\ (forall col,
           ~ In col (map (fun name => normalize_header (Some name)) ex_item_columns) ->
           PyDict.get pystr_eq_dec source_row col = None).
Proof.
  apply (@read_csv_rows_field ex_item_columns (tl ex_items) [str "bar"; str "b"; str "n"]).
  - discriminate.
  - vm_compute. repeat constructor; simpl; intuition discriminate.
  - now left.
  - reflexivity.
Defined.

Lemma project_regular_row (fieldnames row : list pystr) :
  NoDup (map (fun name => normalize_header (Some name)) fieldnames) ->
  length row = length fieldnames ->
  to_output_row (fix_row (DictReader_next fieldnames row))
                (map (fun name => normalize_header (Some name)) fieldnames)
  = map VStr row.
Proof.
  intros Hnd Hlen. rewrite read_row_regular by assumption.
  unfold to_output_row. apply PyDictLaws.get_combine_keys; [assumption|].
  now rewrite !length_map.
Qed.

(** X5: a section file other than additions.csv whose columns are the
    output columns, all distinct, and whose rows are all as long as its
    header, is copied row for row, in order and unchanged. *)
Theorem section_file_copied
        (file_name : pystr) (fieldnames : list pystr) (rest : csv_records)
        (rows_out : list (list value)) :
  file_name <> str "additions.csv" ->
  fieldnames <> [] ->
  NoDup (map (fun name => normalize_header (Some name)) fieldnames) ->
  Forall (fun row => length row = length fieldnames) rest ->
  source_loop file_name (map (fun name => normalize_header (Some name)) fieldnames)
              (snd (read_records (fieldnames :: rest))) rows_out
  = Ok (rows_out ++ map (map VStr) rest).
Proof.
  intros Hname Hne Hnd Hrows.
  rewrite source_loop_spec by apply read_records_ok.
  rewrite kept_other by assumption. do 2 f_equal.
  destruct fieldnames as [|f fs]; [congruence|]. cbn [read_records snd].
  assert (Hfilter : filter (fun row : list pystr =>
                              match row with [] => false | _ :: _ => true end) rest
                    = rest).
  { clear - Hrows. induction Hrows as [|row rest Hrow Hrest IH]; simpl.
    - reflexivity.
    - destruct row; [discriminate|]. now rewrite IH. }
  rewrite Hfilter, map_map. apply map_ext_in. intros row Hin.
  apply project_regular_row; [assumption|].
  rewrite Forall_forall in Hrows. now apply Hrows.
Qed.

Lemma section_file_copied_witness :
  source_loop (str "items.csv") ex_item_columns (snd (read_records ex_items)) []
  = Ok ([] ++ map (map VStr) (tl ex_items)).
Proof.
  apply (@section_file_copied (str "items.csv") ex_item_columns (tl ex_items) []).
  - discriminate.
  - discriminate.
  - vm_compute. repeat constructor; simpl; intuition discriminate.
  - repeat constructor.
Defined.

(** ** Ragged rows *)

Lemma in_firstn_combine (A B : Type) (a : A) (l : list A) :
  forall l' : list B,
    In a (firstn (length l') l) -> exists b, In (a, b) (combine l l').
Proof.
  induction l as [|x l IH]; intros [|y l'] Hin; simpl in Hin; try contradiction.
  destruct Hin as [->|Hin].
  - exists y. now left.
  - destruct (IH l' Hin) as [b Hb]. exists b. now right.
Qed.

Lemma of_pairs_has_key (pairs : list (option pystr * reader_value)) k v :
  In (k, v) pairs ->
  PyDict.get reader_key_eq_dec (PyDict.of_pairs reader_key_eq_dec pairs) k <> None.
Proof.
  intros Hin. unfold PyDict.of_pairs.
  apply (PyDictLaws.fold_setitem_has_key reader_key_eq_dec
           (fun kv : option pystr * reader_value => kv)).
  left. exists (k, v). now split.
Qed.

Lemma DictReader_next_has_key (fieldnames row : list pystr) (name : pystr) :
  In name fieldnames ->
  PyDict.get reader_key_eq_dec (DictReader_next fieldnames row) (Some name) <> None.
Proof.
  intros Hin. unfold DictReader_next.
  set (d := PyDict.of_pairs reader_key_eq_dec
              (combine (map Some fieldnames) (map RStr row))).
  assert (Hzip : In name (firstn (length row) fieldnames) ->
                 PyDict.get reader_key_eq_dec d (Some name) <> None).
  { intros Hf. assert (Hs : In (Some name)
                               (firstn (length (map RStr row)) (map Some fieldnames))).
    { rewrite length_map, firstn_map. now apply in_map. }
    apply in_firstn_combine in Hs as [v Hv]. eapply of_pairs_has_key. exact Hv. }
  rewrite <- (firstn_skipn (length row) fieldnames) in Hin.
  apply in_app_or in Hin.
  destruct (length fieldnames <? length row) eqn:Hlt.
  - apply PyDictLaws.setitem_keeps_key. right. apply Hzip.
    destruct Hin as [Hin|Hin]; [assumption|].
    apply Nat.ltb_lt in Hlt. rewrite skipn_all2 in Hin by lia. contradiction.
  - destruct (length row <? length fieldnames) eqn:Hgt.
    + apply (PyDictLaws.fold_setitem_has_key reader_key_eq_dec
               (fun key : pystr => (Some key, RNone))).
      destruct Hin as [Hin|Hin].
      * right. now apply Hzip.
      * left. exists name. now split.
    + apply Hzip. destruct Hin as [Hin|Hin]; [assumption|].
      apply Nat.ltb_ge in Hlt. apply Nat.ltb_ge in Hgt.
      rewrite skipn_all2 in Hin by lia. contradiction.
Qed.

Lemma fix_row_has_key (row : reader_row) (key : option pystr) :
  PyDict.get reader_key_eq_dec row key <> None ->
  PyDict.get pystr_eq_dec (fix_row row) (normalize_header key) <> None.
Proof.
  intros Hget. apply PyDictLaws.get_In in Hget as [v Hv].
  unfold fix_row, PyDict.items. rewrite fix_row_fold.
  apply (PyDictLaws.fold_setitem_has_key pystr_eq_dec fixed_item).
  left. exists (key, v). now split.
Qed.

(** X6: every row [read_csv_rows] returns has a value under every column
    name the function returns, whatever the length of the row in the file
    and whether or not column names repeat; under a column name other
    than the empty one the value is a string. *)
Theorem read_csv_rows_columns_present
        (records : csv_records) (row : source_row) (name : pystr) :
  In row (snd (read_records records)) ->
  In name (fst (read_records records)) ->
  exists v,
    PyDict.get pystr_eq_dec row name = Some v
    /\ (name <> [] -> exists s, v = VStr s).
Proof.
  intros Hrow Hname.
  assert (Hok : Forall source_item_ok row).
  { pose proof (read_records_ok records) as H.
    rewrite Forall_forall in H. now apply H. }
  destruct records as [|[|f fs] rest]; try contradiction.
  cbn [read_records fst snd] in Hrow, Hname.
  apply in_map_iff in Hrow as [r [<- _]].
  apply in_map_iff in Hname as [raw [<- Hraw]].
  pose proof (@fix_row_has_key _ _ (@DictReader_next_has_key (f :: fs) r raw Hraw)) as Hkey.
  destruct (PyDict.get pystr_eq_dec (fix_row (DictReader_next (f :: fs) r))
                       (normalize_header (Some raw))) as [v|] eqn:Hget;
    [|congruence].
  exists v. split; [reflexivity|]. intros Hne.
  apply PyDictFacts.get_Forall with (P := source_item_ok) in Hget; [|assumption].
  unfold source_item_ok in Hget. cbn [fst snd] in Hget.
  destruct v as [s|l]; [now exists s | contradiction].
Qed.

Lemma read_csv_rows_columns_present_witness :
  exists v,
    PyDict.get pystr_eq_dec
               (fix_row (DictReader_next (hd [] ex_additions) [str "short"])) (str "ZH")
    = Some v
    /\ (str "ZH" <> [] -> exists s, v = VStr s).
Proof.
  apply (@read_csv_rows_columns_present ex_additions
           (fix_row (DictReader_next (hd [] ex_additions) [str "short"])) (str "ZH")).
  - vm_compute. right. right. left. reflexivity.
  - vm_compute. right. right. left. reflexivity.
Defined.

Lemma DictReader_zip_keys (fieldnames row : list pystr) :
  ~ In None (map fst (PyDict.of_pairs reader_key_eq_dec
                        (combine (map Some fieldnames) (map RStr row)))).
Proof.
  assert (H : Forall (fun kv : option pystr * reader_value => fst kv <> None)
                (PyDict.of_pairs reader_key_eq_dec
                   (combine (map Some fieldnames) (map RStr row)))).
  { unfold PyDict.of_pairs.
    apply PyDictFacts.fold_setitem_Forall
      with (f := fun kv : option pystr * reader_value => kv).
    - constructor.
    - intros [k v] Hin. apply in_combine_l in Hin.
      apply in_map_iff in Hin as [s [<- _]]. discriminate. }
  rewrite Forall_forall in H. intros Hin.
  apply in_map_iff in Hin as [kv [Hk Hkv]]. now apply (H kv).
Qed.

(** X7: when a row of a file has more fields than the header, the fields
    beyond the header are kept together, as one list, under the empty
    column name; an output column with the empty name then receives that
    list in place of a string. *)
Theorem long_row_surplus
        (fieldnames : list pystr) (rest : csv_records) (row : list pystr) :
  fieldnames <> [] ->
  In row rest ->
  length fieldnames < length row ->
  exists source_row,
    In source_row (snd (read_records (fieldnames :: rest)))
    /\ PyDict.get pystr_eq_dec source_row []
       = Some (VList (skipn (length fieldnames) row))
    /\ to_output_row source_row [[]] = [VList (skipn (length fieldnames) row)].
Proof.
  intros Hne Hin Hlt.
  exists (fix_row (DictReader_next fieldnames row)).
  assert (Hget : PyDict.get pystr_eq_dec (fix_row (DictReader_next fieldnames row)) []
                 = Some (VList (skipn (length fieldnames) row))).
  { unfold DictReader_next. apply Nat.ltb_lt in Hlt. rewrite Hlt.
    rewrite PyDictLaws.setitem_fresh by apply DictReader_zip_keys.
    unfold fix_row, PyDict.items. rewrite fold_left_app. cbn [fold_left].
    unfold fix_item at 1. cbn [fst snd].
    change (normalize_header None) with (@nil N).
    rewrite PyDictFacts.get_setitem.
    destruct (pystr_eq_dec [] []); [reflexivity | congruence]. }
  split; [|split].
  - destruct fieldnames as [|f fs]; [congruence|]. cbn [read_records snd].
    apply in_map_iff. exists row. split; [reflexivity|].
    apply filter_In. split; [assumption|].
    destruct row; [simpl in Hlt; lia | reflexivity].
  - exact Hget.
  - unfold to_output_row. cbn [map]. now rewrite Hget.
Qed.

Lemma long_row_surplus_witness :
  exists source_row,
    In source_row (snd (read_records ex_additions))
    /\ PyDict.get pystr_eq_dec source_row [] = Some (VList [str "extra"])
    /\ to_output_row source_row [[]] = [VList [str "extra"]].
Proof.
  apply (@long_row_surplus (hd [] ex_additions) (tl ex_additions)
           [str "foo"; str "f"; str "g"; str "extra"]).
  - discriminate.
  - right. right. left. reflexivity.
  - simpl. lia.
Defined.

(** ** When [build_combined_rows] fails, and what it warns about *)

Lemma NO_LANGUAGE_ROWS_not_missing (file_name : pystr) :
  NO_LANGUAGE_ROWS <> MISSING_FILE ++ file_name.
Proof.
  intros H. apply (f_equal (hd 0%N)) in H. vm_compute in H. discriminate.
Qed.

Lemma missing_warnings_iff
      (path_join : pystr -> pystr -> pystr) (fs : filesystem)
      (text_dir : pystr) (section_order : list pystr) (file_name : pystr) :
  In (MISSING_FILE ++ file_name) (missing_warnings path_join fs text_dir section_order)
  <-> In file_name section_order /\ files fs (path_join text_dir file_name) = None.
Proof.
  unfold missing_warnings. rewrite in_flat_map. split.
  - intros [name [Hin Hw]]. unfold isfile in Hw.
    destruct (files fs (path_join text_dir name)) eqn:Hfile; [contradiction|].
    destruct Hw as [Hw|[]]. apply app_inv_head in Hw. subst name. now split.
  - intros [Hin Hnone]. exists file_name. split; [assumption|].
    unfold isfile. rewrite Hnone. now left.
Qed.

Lemma combined_warnings_missing_iff
      (path_join : pystr -> pystr -> pystr) (fs : filesystem)
      (text_dir : pystr) (output_columns section_order : list pystr)
      (file_name : pystr) :
  In (MISSING_FILE ++ file_name)
     (combined_warnings path_join fs text_dir output_columns section_order)
  <-> In file_name section_order /\ files fs (path_join text_dir file_name) = None.
Proof.
  unfold combined_warnings. rewrite in_app_iff, missing_warnings_iff. split.
  - intros [H|H]; [|assumption].
    destruct (language_rows path_join fs text_dir output_columns); [|contradiction].
    destruct H as [H|[]]. now apply NO_LANGUAGE_ROWS_not_missing in H.
  - intros H. now right.
Qed.

Lemma missing_warnings_not_language
      (path_join : pystr -> pystr -> pystr) (fs : filesystem)
      (text_dir : pystr) (section_order : list pystr) :
  ~ In NO_LANGUAGE_ROWS (missing_warnings path_join fs text_dir section_order).
Proof.
  unfold missing_warnings. rewrite in_flat_map. intros [name [_ Hw]].
  destruct (isfile fs (path_join text_dir name)); [contradiction|].
  destruct Hw as [Hw|[]]. symmetry in Hw. now apply NO_LANGUAGE_ROWS_not_missing in Hw.
Qed.

(** X9: the warnings [build_combined_rows] returns say what was missing
    and nothing else: the warning naming a file is there exactly when the
    file is a section of the order and is not in the source directory;
    the warning about language rows is there exactly when no language row
    was written; and there is no warning at all exactly when a language
    row was written and every section file is there. *)
Theorem build_combined_rows_warnings
        (path_join : pystr -> pystr -> pystr) (fs : filesystem)
        (text_dir : pystr) (output_columns section_order : list pystr)
        (rows : list (list value)) (warnings : list pystr) :
  build_combined_rows path_join fs text_dir output_columns section_order
  = Ok (rows, warnings) ->
  (forall file_name,
      In (MISSING_FILE ++ file_name) warnings
      <-> In file_name section_order
          /\ files fs (path_join text_dir file_name) = None)
  /\ (In NO_LANGUAGE_ROWS warnings
      <-> language_rows path_join fs text_dir output_columns = [])
  /\ (warnings = []
      <-> language_rows path_join fs text_dir output_columns <> []
          /\ forall file_name, In file_name section_order ->
                               isfile fs (path_join text_dir file_name) = true).
Proof.
  intros H. apply build_combined_rows_Ok in H as [_ [_ ->]].
  split; [|split].
  - intros file_name. apply combined_warnings_missing_iff.
  - unfold combined_warnings. rewrite in_app_iff. split.
    + intros [H|H].
      * destruct (language_rows path_join fs text_dir output_columns);
          [reflexivity | contradiction].
      * now apply missing_warnings_not_language in H.
    + intros ->. left. now left.
  - unfold combined_warnings. split.
    + intros H. apply app_eq_nil in H as [Hl Hm]. split.
      * destruct (language_rows path_join fs text_dir output_columns); discriminate.
      * intros file_name Hin. unfold isfile.
        destruct (files fs (path_join text_dir file_name)) eqn:Hfile; [reflexivity|].
        assert (Hw : In (MISSING_FILE ++ file_name)
                        (missing_warnings path_join fs text_dir section_order))
          by (apply missing_warnings_iff; now split).
        rewrite Hm in Hw. contradiction.
    + intros [Hl Hall].
      destruct (language_rows path_join fs text_dir output_columns); [congruence|].
      cbn [app]. unfold missing_warnings.
      induction section_order as [|name order IH]; [reflexivity|].
      cbn [flat_map]. rewrite (Hall name) by now left.
      cbn [app]. apply IH. intros file_name Hin. apply Hall. now right.
Qed.

Lemma build_combined_rows_warnings_witness :
  (forall file_name,
      In (MISSING_FILE ++ file_name)
         (combined_warnings ex_join ex_fs (str "text") ex_columns ex_order)
      <-> In file_name ex_order
          /\ files ex_fs (ex_join (str "text") file_name) = None)
  /\ (In NO_LANGUAGE_ROWS
         (combined_warnings ex_join ex_fs (str "text") ex_columns ex_order)
      <-> language_rows ex_join ex_fs (str "text") ex_columns = [])
  /\ (combined_warnings ex_join ex_fs (str "text") ex_columns ex_order = []
      <-> language_rows ex_join ex_fs (str "text") ex_columns <> []
          /\ forall file_name, In file_name ex_order ->
                               isfile ex_fs (ex_join (str "text") file_name) = true).
Proof.
  apply (@build_combined_rows_warnings ex_join ex_fs (str "text") ex_columns ex_order
           (combined_layout ex_join ex_fs (str "text") ex_columns ex_order)).
  vm_compute. reflexivity.
Defined.

(** ** The whole run *)

Section Run.
Variable path_join : pystr -> pystr -> pystr.
Variable path_abspath : pystr -> pystr.
Variable path_isabs : pystr -> bool.
Variable csv_writer : list (list value) -> list N.
Variable fs : filesystem.
Variable args : arguments.

Local Notation text_dir_abs := (path_abspath (arg_text_dir args)).
Local Notation reference_abs := (path_abspath (arg_reference_combined args)).
Local Notation run := (main path_join path_abspath path_isabs csv_writer fs args).

(** The run, once the tests of [main] and the two functions it calls are
    resolved. *)
Lemma main_spec :
  run
  = if negb (isdir fs text_dir_abs)
    then Raise (SystemExit (str "输入目录不存在: " ++ text_dir_abs))
    else
      match files fs reference_abs with
      | None => Raise (SystemExit (str "参考 combined 不存在: " ++ reference_abs))
      | Some [] => Raise (SystemExit (str "参考 combined 为空: " ++ reference_abs))
      | Some (raw_header :: reader) =>
        match section_names reader with
        | [] => Raise (SystemExit (str "未能从参考 combined 中提取任何分段顺序"))
        | name :: names =>
          let output_columns := map (fun col => normalize_header (Some col)) raw_header in
          let section_order := name :: names in
          match raw_header with
          | [] => Raise IndexError
          | _ :: _ =>
            let rows := combined_layout path_join fs text_dir_abs
                                        output_columns section_order in
            let output_path :=
              match strip (arg_output args) with
              | [] => path_join text_dir_abs (str "combined.csv")
              | _ :: _ => if negb (path_isabs (strip (arg_output args)))
                          then path_abspath (strip (arg_output args))
                          else strip (arg_output args)
              end in
            Ok {| out_file := write_combined csv_writer output_path output_columns rows;
                  out_sections := length section_order;
                  out_rows := length rows;
                  out_warnings := combined_warnings path_join fs text_dir_abs
                                                    output_columns section_order |}
          end
        end
      end.
Proof.
  unfold main. destruct (negb (isdir fs text_dir_abs)); [reflexivity|].
  unfold isfile. rewrite parse_reference_combined_spec.
  destruct (files fs reference_abs) as [[|raw_header reader]|]; try reflexivity.
  cbn [negb]. destruct (section_names reader) as [|name names]; [reflexivity|].
  cbn [bind fst snd]. rewrite build_combined_rows_spec.
  destruct raw_header as [|col cols]; reflexivity.
Qed.

End Run.

(** ** Which rows are language rows *)

Lemma in_LANGUAGE_KEYS_iff (key : pystr) :
  in_LANGUAGE_KEYS key = true
  <-> key = str "CURRENT_LANGUAGE_NAME" \/ key = str "CURRENT_LANGUAGE_SHIPPABLE".
Proof.
  unfold in_LANGUAGE_KEYS, LANGUAGE_KEYS. cbn [existsb].
  rewrite !orb_true_iff, !pystr_eqb_eq. split.
  - intros [H|[H|H]]; [now left | now right | discriminate].
  - intros [H|H]; [now left | right; now left].
Qed.

(** X12: the test for a language row, as [build_combined_rows] makes it
    in both of its loops, succeeds exactly when the row holds under KEY a
    string that, once stripped of surrounding white space, is
    CURRENT_LANGUAGE_NAME or CURRENT_LANGUAGE_SHIPPABLE; a row with no
    KEY column is never a language row. *)
Theorem language_key_test (row : source_row) :
  ((exists key, row_key row = Ok key /\ in_LANGUAGE_KEYS key = true)
   <-> exists s,
        PyDict.get pystr_eq_dec row (str "KEY") = Some (VStr s)
        /\ (strip s = str "CURRENT_LANGUAGE_NAME"
            \/ strip s = str "CURRENT_LANGUAGE_SHIPPABLE"))
  /\ (PyDict.get pystr_eq_dec row (str "KEY") = None ->
      row_key row = Ok [] /\ in_LANGUAGE_KEYS [] = false).
Proof.
  unfold row_key. split.
  - destruct (PyDict.get pystr_eq_dec row (str "KEY")) as [[s|[|x l]]|]; split.
    + intros [key [[= <-] Hin]]. exists s. split; [reflexivity|].
      now apply in_LANGUAGE_KEYS_iff.
    + intros [s' [[= <-] Hs]]. exists (strip s). split; [reflexivity|].
      now apply in_LANGUAGE_KEYS_iff.
    + intros [key [[= <-] Hin]]. discriminate.
    + intros [s' [H _]]. discriminate.
    + intros [key [H _]]. discriminate.
    + intros [s' [H _]]. discriminate.
    + intros [key [[= <-] Hin]]. discriminate.
    + intros [s' [H _]]. discriminate.
  - intros ->. split; reflexivity.
Qed.

Lemma language_key_test_witness :
  exists key,
    row_key [(str "KEY", VStr (str "  CURRENT_LANGUAGE_NAME "))] = Ok key
    /\ in_LANGUAGE_KEYS key = true.
Proof.
  apply (proj2 (proj1 (language_key_test
                         [(str "KEY", VStr (str "  CURRENT_LANGUAGE_NAME "))]))).
  exists (str "  CURRENT_LANGUAGE_NAME "). split; [reflexivity|]. left. reflexivity.
Defined.

(** ** Files with no usable header *)




(** ** Nothing is lost, nothing is made up *)


Lemma sections_layout_origin
      (path_join : pystr -> pystr -> pystr) (fs : filesystem)
      (text_dir : pystr) (output_columns section_order : list pystr)
      (row : list value) :
  In row (sections_layout path_join fs text_dir output_columns section_order) ->
  row = blank_row output_columns
  \/ (exists file_name, In file_name section_order
                        /\ row = marker_row output_columns file_name)
  \/ (exists file_name,
         In file_name section_order
         /\ In row (section_rows path_join fs text_dir output_columns file_name)).
Proof.
  induction section_order as [|name order IH]; [contradiction|].
  cbn [sections_layout]. intros [<-|Hin].
  - right. left. exists name. split; [now left | reflexivity].
  - apply in_app_or in Hin as [Hin|Hin].
    + right. right. exists name. split; [now left | assumption].
    + destruct order as [|next order]; [contradiction|].
      destruct Hin as [<-|Hin]; [now left|].
      destruct (IH Hin) as [H|[[f [Hf H]]|[f [Hf H]]]].
      * now left.
      * right. left. exists f. split; [now right | assumption].
      * right. right. exists f. split; [now right | assumption].
Qed.



(** X15: nothing is made up: every row [build_combined_rows] returns is
    a blank row, the marker row of a section of the order, or the
    projection of a row read from additions.csv or from a file of the
    section order. *)
Theorem written_rows_origin
        (path_join : pystr -> pystr -> pystr) (fs : filesystem)
        (text_dir : pystr) (output_columns section_order : list pystr)
        (rows : list (list value)) (warnings : list pystr) (row : list value) :
  build_combined_rows path_join fs text_dir output_columns section_order
  = Ok (rows, warnings) ->
  In row rows ->
  row = blank_row output_columns
  \/ (exists file_name, In file_name section_order
                        /\ row = marker_row output_columns file_name)
  \/ (exists file_name records data_row,
         (file_name = str "additions.csv" \/ In file_name section_order)
         /\ files fs (path_join text_dir file_name) = Some records
         /\ In data_row (snd (read_records records))
         /\ row = to_output_row data_row output_columns).
Proof.
  intros Hbuild Hin. apply build_combined_rows_Ok in Hbuild as [_ [-> _]].
  assert (Hfile : forall file_name r,
             In r (rows_of path_join fs text_dir file_name) ->
             exists records, files fs (path_join text_dir file_name) = Some records
                             /\ In r (snd (read_records records))).
  { intros file_name r. unfold rows_of.
    destruct (files fs (path_join text_dir file_name)) as [records|];
      [|contradiction].
    intros H. now exists records. }
  unfold combined_layout in Hin. apply in_app_or in Hin as [Hin|[<-|Hin]].
  - right. right. unfold language_rows in Hin.
    apply in_map_iff in Hin as [r [<- Hr]]. apply filter_In in Hr as [Hr _].
    destruct (Hfile _ _ Hr) as [records [Hf Hrec]].
    exists (str "additions.csv"), records, r. repeat split; auto.
  - now left.
  - apply sections_layout_origin in Hin as [H|[H|[f [Hf H]]]].
    + now left.
    + right. now left.
    + right. right. rewrite section_rows_kept in H.
      apply in_map_iff in H as [r [<- Hr]]. apply filter_In in Hr as [Hr _].
      destruct (Hfile _ _ Hr) as [records [Hfs Hrec]].
      exists f, records, r. repeat split; auto.
Qed.

Lemma written_rows_origin_witness :
  blank_row ex_columns = blank_row ex_columns
  \/ (exists file_name, In file_name ex_order
                        /\ blank_row ex_columns = marker_row ex_columns file_name)
  \/ (exists file_name records data_row,
         (file_name = str "additions.csv" \/ In file_name ex_order)
         /\ files ex_fs (ex_join (str "text") file_name) = Some records
         /\ In data_row (snd (read_records records))
         /\ blank_row ex_columns = to_output_row data_row ex_columns).
Proof.
  apply (@written_rows_origin ex_join ex_fs (str "text") ex_columns ex_order
           (combined_layout ex_join ex_fs (str "text") ex_columns ex_order)
           (combined_warnings ex_join ex_fs (str "text") ex_columns ex_order)
           (blank_row ex_columns)).
  - vm_compute. reflexivity.
  - vm_compute. right. left. reflexivity.
Defined.

(** ** How often a language row is written *)











(** ** What a returned result and a stopped run tell *)

(** X8: [build_combined_rows] returns only with a column to write in or
    no section to write: if it returns for a non-empty section order the
    column list is not empty, and if it returns for an empty column list
    the section order is empty and every returned row is the empty
    row. *)
Theorem build_combined_rows_needs_column
        (path_join : pystr -> pystr -> pystr) (fs : filesystem)
        (text_dir : pystr) (output_columns section_order : list pystr)
        (rows : list (list value)) (warnings : list pystr) :
  build_combined_rows path_join fs text_dir output_columns section_order
  = Ok (rows, warnings) ->
  (section_order <> [] -> output_columns <> [])
  /\ (output_columns = [] ->
      section_order = [] /\ Forall (fun row => row = []) rows).
Proof.
  intros H. apply build_combined_rows_Ok in H as [Hcase [-> _]]. split.
  - intros Horder. destruct Hcase as [Hc|Ho]; [assumption | contradiction].
  - intros Hcols. assert (Horder : section_order = [])
      by (destruct Hcase as [Hc|Ho]; [contradiction | assumption]).
    split; [assumption|].
    pose proof (@combined_layout_width path_join fs text_dir output_columns
                                       section_order (or_intror Horder)) as Hw.
    rewrite Hcols in Hw. cbn [length] in Hw. rewrite Forall_forall in Hw.
    apply Forall_forall. intros row Hin. rewrite Hcols in Hin.
    apply length_zero_iff_nil. now apply Hw.
Qed.

Lemma build_combined_rows_needs_column_witness :
  (@nil pystr <> [] -> @nil pystr <> [])
  /\ (@nil pystr = [] ->
      @nil pystr = []
      /\ Forall (fun row => row = [])
                (combined_layout ex_join ex_fs (str "text") [] [])).
Proof.
  apply (@build_combined_rows_needs_column ex_join ex_fs (str "text") [] []
           (combined_layout ex_join ex_fs (str "text") [] [])
           (combined_warnings ex_join ex_fs (str "text") [] [])).
  vm_compute. reflexivity.
Defined.

(** X10: when a run completes, the source directory exists, the
    reference file has a non-blank first row and at least one marker row
    after it, and what was handed to the writer for the output path is
    the reference header, leading U+FEFF removed from each name, followed
    by the assembled rows; the output path is text_dir/combined.csv when
    the output argument is blank, else the stripped argument, made
    absolute when relative; the run reports as many sections as the
    reference has marker rows. *)
Theorem main_outcome
        (path_join : pystr -> pystr -> pystr) (path_abspath : pystr -> pystr)
        (path_isabs : pystr -> bool) (csv_writer : list (list value) -> list N)
        (fs : filesystem) (args : arguments) (outcome : outcome) :
  main path_join path_abspath path_isabs csv_writer fs args = Ok outcome ->
  isdir fs (path_abspath (arg_text_dir args)) = true
  /\ exists raw_header reader,
      files fs (path_abspath (arg_reference_combined args)) = Some (raw_header :: reader)
      /\ raw_header <> []
      /\ section_names reader <> []
      /\ written_bytes (out_file outcome)
         = csv_writer
             (map VStr (map (fun col => normalize_header (Some col)) raw_header)
              :: combined_layout path_join fs (path_abspath (arg_text_dir args))
                   (map (fun col => normalize_header (Some col)) raw_header)
                   (section_names reader))
      /\ written_path (out_file outcome)
         = match strip (arg_output args) with
           | [] => path_join (path_abspath (arg_text_dir args)) (str "combined.csv")
           | _ :: _ => if path_isabs (strip (arg_output args))
                       then strip (arg_output args)
                       else path_abspath (strip (arg_output args))
           end
      /\ out_sections outcome = length (filter is_section_marker reader)
      /\ out_rows outcome
         = length (combined_layout path_join fs (path_abspath (arg_text_dir args))
                     (map (fun col => normalize_header (Some col)) raw_header)
                     (section_names reader))
      /\ out_warnings outcome
         = combined_warnings path_join fs (path_abspath (arg_text_dir args))
             (map (fun col => normalize_header (Some col)) raw_header)
             (section_names reader).
Proof.
  rewrite main_spec.
  destruct (isdir fs (path_abspath (arg_text_dir args))); cbn [negb]; [|discriminate].
  destruct (files fs (path_abspath (arg_reference_combined args)))
    as [[|raw_header reader]|]; try discriminate.
  assert (Hlen : length (section_names reader) = length (filter is_section_marker reader))
    by (unfold section_names; apply length_map).
  destruct (section_names reader) as [|name names] eqn:Hnames; [discriminate|].
  destruct raw_header as [|col cols]; [discriminate|].
  intros [= <-]. split; [reflexivity|].
  exists (col :: cols), reader. rewrite Hnames.
  cbn [out_file out_sections out_rows out_warnings].
  unfold write_combined. cbn [written_bytes written_path].
  repeat split; try discriminate.
  - destruct (strip (arg_output args)) as [|c rest]; [reflexivity|].
    destruct (path_isabs (c :: rest)); reflexivity.
  - exact Hlen.
Qed.

Lemma main_outcome_witness :
  isdir ex_fs (str "text") = true
  /\ exists raw_header reader,
      files ex_fs (str "ref.csv") = Some (raw_header :: reader)
      /\ raw_header <> []
      /\ section_names reader <> []
      /\ written_bytes
           (write_combined ex_writer (ex_join (str "text") (str "combined.csv"))
              (map (fun col => normalize_header (Some col)) (hd [] ex_reference))
              (combined_layout ex_join ex_fs (str "text")
                 (map (fun col => normalize_header (Some col)) (hd [] ex_reference))
                 (section_names (tl ex_reference))))
         = ex_writer
             (map VStr (map (fun col => normalize_header (Some col)) raw_header)
              :: combined_layout ex_join ex_fs (str "text")
                   (map (fun col => normalize_header (Some col)) raw_header)
                   (section_names reader))
      /\ ex_join (str "text") (str "combined.csv")
         = ex_join (str "text") (str "combined.csv")
      /\ 3 = length (filter is_section_marker reader)
      /\ length (combined_layout ex_join ex_fs (str "text")
                   (map (fun col => normalize_header (Some col)) (hd [] ex_reference))
                   (section_names (tl ex_reference)))
         = length (combined_layout ex_join ex_fs (str "text")
                     (map (fun col => normalize_header (Some col)) raw_header)
                     (section_names reader))
      /\ combined_warnings ex_join ex_fs (str "text")
           (map (fun col => normalize_header (Some col)) (hd [] ex_reference))
           (section_names (tl ex_reference))
         = combined_warnings ex_join ex_fs (str "text")
             (map (fun col => normalize_header (Some col)) raw_header)
             (section_names reader).
Proof.
  apply (@main_outcome ex_join (fun p => p) (fun _ => false) ex_writer ex_fs ex_args
           {| out_file :=
                write_combined ex_writer (ex_join (str "text") (str "combined.csv"))
                  (map (fun col => normalize_header (Some col)) (hd [] ex_reference))
                  (combined_layout ex_join ex_fs (str "text")
                     (map (fun col => normalize_header (Some col)) (hd [] ex_reference))
                     (section_names (tl ex_reference)));
              out_sections := 3;
              out_rows :=
                length (combined_layout ex_join ex_fs (str "text")
                          (map (fun col => normalize_header (Some col))
                               (hd [] ex_reference))
                          (section_names (tl ex_reference)));
              out_warnings :=
                combined_warnings ex_join ex_fs (str "text")
                  (map (fun col => normalize_header (Some col)) (hd [] ex_reference))
                  (section_names (tl ex_reference)) |}).
  vm_compute. reflexivity.
Defined.

(** X11: the checks of [main] stop a run with SystemExit, in this order:
    the source directory does not exist; the reference file does not
    exist; the reference file has no row; no marker row follows its
    first row.  A reference file whose first line is blank while marker
    rows follow passes all four: the run then neither completes nor ends
    in SystemExit, and with no additions.csv in the source directory it
    raises IndexError at the first marker row. *)
Theorem main_fatal_checks
        (path_join : pystr -> pystr -> pystr) (path_abspath : pystr -> pystr)
        (path_isabs : pystr -> bool) (csv_writer : list (list value) -> list N)
        (fs : filesystem) (args : arguments) :
  let run := main path_join path_abspath path_isabs csv_writer fs args in
  let text_dir := path_abspath (arg_text_dir args) in
  let reference_path := path_abspath (arg_reference_combined args) in
  (isdir fs text_dir = false ->
   run = Raise (SystemExit (str "输入目录不存在: " ++ text_dir)))
  /\ (isdir fs text_dir = true ->
      files fs reference_path = None ->
      run = Raise (SystemExit (str "参考 combined 不存在: " ++ reference_path)))
  /\ (isdir fs text_dir = true ->
      files fs reference_path = Some [] ->
      run = Raise (SystemExit (str "参考 combined 为空: " ++ reference_path)))
  /\ (isdir fs text_dir = true ->
      forall raw_header reader,
        files fs reference_path = Some (raw_header :: reader) ->
        section_names reader = [] ->
        run = Raise (SystemExit (str "未能从参考 combined 中提取任何分段顺序")))
  /\ (isdir fs text_dir = true ->
      forall reader,
        files fs reference_path = Some ([] :: reader) ->
        section_names reader <> [] ->
        (forall outcome, run <> Ok outcome)
        /\ (forall message, run <> Raise (SystemExit message))
        /\ (files fs (path_join text_dir (str "additions.csv")) = None ->
            run = Raise IndexError)).
Proof.
  intros run text_dir reference_path. unfold run. rewrite main_spec.
  fold text_dir reference_path.
  repeat split.
  - intros ->. reflexivity.
  - intros -> ->. reflexivity.
  - intros -> ->. reflexivity.
  - intros -> raw_header reader -> ->. reflexivity.
  - rewrite H, H0. cbn [negb].
    destruct (section_names reader); [congruence | discriminate].
  - rewrite H, H0. cbn [negb].
    destruct (section_names reader); [congruence | discriminate].
  - rewrite H, H0. cbn [negb].
    destruct (section_names reader); [congruence | reflexivity].
Qed.

Lemma main_fatal_checks_witness :
  main ex_join (fun p => p) (fun _ => false) ex_writer ex_blank_fs ex_args
  = Raise IndexError.
Proof.
  apply (proj2 (proj2 (proj2 (proj2
           (main_fatal_checks ex_join (fun p => p) (fun _ => false) ex_writer
                              ex_blank_fs ex_args))))
         eq_refl [[str "// items.csv"]]).
  - reflexivity.
  - vm_compute. discriminate.
  - reflexivity.
Defined.
